(** * Content generator: credential resolution, factory dispatch and the
      chat-completion wrapper

    A shallow embedding of [packages/core/src/core/contentGenerator.ts].

    - [process.env] is a finite map from variable names to strings.
    - An [async] function is a finite tree of [await]s on the external
      collaborators ([getEffectiveModel], the chat-completion client), ended
      by a resolved value or a rejection.
    - JavaScript's [undefined] is [None]; the empty string is a string like
      any other, and only [truthy] tells it apart from the others. *)

From Stdlib Require Import String List Bool.
From stdpp Require Import base option strings gmap.
Import ListNotations.
Local Open Scope string_scope.

(** ** JavaScript operators used by the source *)

Module Js.

(** Truthiness of a [string | undefined] value: [undefined] and [''] are
    falsy, every other string is truthy. *)
Definition truthy (v : option string) : bool :=
  match v with
  | None => false
  | Some s => negb (String.eqb s "")
  end.

(** [a || b] on [string | undefined] operands. *)
Definition or (a b : option string) : option string :=
  if truthy a then a else b.

(** [a || d] where the last operand is a string. *)
Definition or_string (a : option string) (d : string) : string :=
  match a with
  | Some s => if String.eqb s "" then d else s
  | None => d
  end.

(** [a ?? d]: only [undefined] and [null] are replaced. *)
Definition nullish (a : option string) (d : string) : string :=
  match a with
  | Some s => s
  | None => d
  end.

(** [a === b] for an optional string against a string constant. *)
Definition strict_eq (a : option string) (b : string) : bool :=
  match a with
  | Some s => String.eqb s b
  | None => false
  end.

(** [Array.prototype.join] on an array of strings. *)
Definition join (sep : string) (l : list string) : string :=
  String.concat sep l.

(** The one-character string ['\n']. *)
Definition LF : string := String (Ascii.ascii_of_nat 10) EmptyString.

(** A property [k] of an object [o]: the key may be missing, or be there
    with [undefined] or [null] as its value, or with a value. *)
Inductive Property (A : Type) : Type :=
| Absent
| Nullish
| Value (a : A).

Arguments Absent {A}.
Arguments Nullish {A}.
Arguments Value {A} a.

(** ['k' in o] *)
Definition has {A : Type} (p : Property A) : bool :=
  match p with
  | Absent => false
  | Nullish | Value _ => true
  end.

(** [o.k], with [undefined] and [null] both read as [None]. *)
Definition get {A : Type} (p : Property A) : option A :=
  match p with
  | Absent | Nullish => None
  | Value a => Some a
  end.

(** [`${v}`] for a [string | undefined] value. *)
Definition template (v : option string) : string :=
  match v with
  | Some s => s
  | None => "undefined"
  end.

(** Thrown values. *)
Inductive Exception : Type :=
| Error (message : string)
| TypeError (message : string).

End Js.

(** ** The process *)

(** [process.env], [process.version], [process.platform], [process.arch]. *)
Record Process : Type := {
  env : gmap string string;
  version : string;
  platform : string;
  arch : string;
}.

(** ** Asynchronous computations *)

(** Types of the chat-completion SDK, as far as the source reads or builds
    them. *)
Module OpenAI.

(** [new OpenAI({ apiKey })]. *)
Record Client : Type := { apiKey : option string }.

Record Message : Type := { role : string; content : option string }.

(** The body of [chat.completions.create]. *)
Record CreateParams : Type := { model : string; messages : list Message }.

Record Choice : Type := { message : Message }.

Record ChatCompletion : Type := { choices : list Choice }.

End OpenAI.

(** The collaborators an [async] function of this file awaits: the
    Effective Model Resolver of [modelCheck.js] and the chat-completion
    endpoint of the SDK client.  Both are outside this file; what they
    answer is up to the handler that runs the computation. *)
Inductive Collaborator : Type -> Type :=
| getEffectiveModel (apiKey : option string) (model : string) : Collaborator string
| chat_completions_create (openai : OpenAI.Client) (body : OpenAI.CreateParams) :
    Collaborator OpenAI.ChatCompletion.

(** An [async] function body: it resolves, rejects, or awaits a collaborator
    and goes on with the answer.  The source has no [try]/[catch], so a
    collaborator's rejection is the rejection of the whole computation. *)
Inductive Async (R : Type) : Type :=
| Resolve (r : R)
| Reject (e : Js.Exception)
| Await {X : Type} (c : Collaborator X) (k : X -> Async R).

Arguments Resolve {R} r.
Arguments Reject {R} e.
Arguments Await {R X} c k.

Notation "'const' x ':=' 'await' c 'in' k" := (Await c (fun x => k))
  (at level 10, x name, c at level 100, k at level 200).

(** One call made while a computation ran. *)
Definition Call : Type := { X : Type & Collaborator X }.

Definition call {X : Type} (c : Collaborator X) : Call := existT X c.

(** What the outside world answers to each call: a value or a rejection. *)
Definition Handler : Type := forall X : Type, Collaborator X -> Js.Exception + X.

(** Running a computation against a handler gives the calls made, in order,
    and the outcome. *)
Fixpoint run {R : Type} (h : Handler) (p : Async R) : list Call * (Js.Exception + R) :=
  match p with
  | Resolve r => ([], inr r)
  | Reject e => ([], inl e)
  | Await c k =>
      match h _ c with
      | inl e => ([call c], inl e)
      | inr x => let '(t, o) := run h (k x) in (call c :: t, o)
      end
  end.

Definition calls {R : Type} (h : Handler) (p : Async R) : list Call := fst (run h p).

Definition outcome {R : Type} (h : Handler) (p : Async R) : Js.Exception + R :=
  snd (run h p).

(** ** The configuration *)

Module AuthType.
Definition LOGIN_WITH_GOOGLE : string := "oauth-personal".
Definition USE_GEMINI : string := "gemini-api-key".
Definition USE_VERTEX_AI : string := "vertex-ai".
Definition USE_OPENAI : string := "openai".
End AuthType.

Module ContentGeneratorConfig.

Record t : Type := {
  model : string;
  apiKey : option string;
  vertexai : option bool;
  authType : option string;
}.

(** Assignments to one field of the (mutable) object. *)
Definition set_model (v : string) (c : t) : t :=
  {| model := v; apiKey := apiKey c; vertexai := vertexai c; authType := authType c |}.

Definition set_apiKey (v : option string) (c : t) : t :=
  {| model := model c; apiKey := v; vertexai := vertexai c; authType := authType c |}.

Definition set_vertexai (v : bool) (c : t) : t :=
  {| model := model c; apiKey := apiKey c; vertexai := Some v; authType := authType c |}.

End ContentGeneratorConfig.

Abbreviation ContentGeneratorConfig := ContentGeneratorConfig.t.

(** The optional third argument [config?: { getModel?: () => string }]. *)
Record ModelOverride : Type := { getModel : option (unit -> string) }.

(** [config?.getModel?.()] *)
Definition callGetModel (config : option ModelOverride) : option string :=
  match config with
  | None => None
  | Some c =>
      match getModel c with
      | None => None
      | Some f => Some (f tt)
      end
  end.

Section CredentialResolver.

(** The constant of [config/models.js]. *)
Variable DEFAULT_GEMINI_MODEL : string.

(** Line 64: [config?.getModel?.() || model || DEFAULT_GEMINI_MODEL]. *)
Definition effectiveModel (model : option string) (config : option ModelOverride) : string :=
  Js.or_string (Js.or (callGetModel config) model) DEFAULT_GEMINI_MODEL.

Definition createContentGeneratorConfig (process : Process)
    (model : option string) (authType : option string)
    (config : option ModelOverride) : Async ContentGeneratorConfig :=
  let geminiApiKey := env process !! "GEMINI_API_KEY" in
  let googleApiKey := env process !! "GOOGLE_API_KEY" in
  let googleCloudProject := env process !! "GOOGLE_CLOUD_PROJECT" in
  let googleCloudLocation := env process !! "GOOGLE_CLOUD_LOCATION" in
  let openaiApiKey := env process !! "OPENAI_API_KEY" in
  let effectiveModel := effectiveModel model config in
  let contentGeneratorConfig :=
    {| ContentGeneratorConfig.model := effectiveModel;
       ContentGeneratorConfig.apiKey := None;
       ContentGeneratorConfig.vertexai := None;
       ContentGeneratorConfig.authType := authType |} in
  if Js.strict_eq authType AuthType.LOGIN_WITH_GOOGLE then
    Resolve contentGeneratorConfig
  else if Js.strict_eq authType AuthType.USE_GEMINI && Js.truthy geminiApiKey then
    let contentGeneratorConfig :=
      ContentGeneratorConfig.set_apiKey geminiApiKey contentGeneratorConfig in
    const m := await getEffectiveModel
                       (ContentGeneratorConfig.apiKey contentGeneratorConfig)
                       (ContentGeneratorConfig.model contentGeneratorConfig) in
    Resolve (ContentGeneratorConfig.set_model m contentGeneratorConfig)
  else if Js.strict_eq authType AuthType.USE_VERTEX_AI
          && Js.truthy googleApiKey
          && Js.truthy googleCloudProject
          && Js.truthy googleCloudLocation then
    let contentGeneratorConfig :=
      ContentGeneratorConfig.set_apiKey googleApiKey contentGeneratorConfig in
    let contentGeneratorConfig :=
      ContentGeneratorConfig.set_vertexai true contentGeneratorConfig in
    const m := await getEffectiveModel
                       (ContentGeneratorConfig.apiKey contentGeneratorConfig)
                       (ContentGeneratorConfig.model contentGeneratorConfig) in
    Resolve (ContentGeneratorConfig.set_model m contentGeneratorConfig)
  else if Js.strict_eq authType AuthType.USE_OPENAI && Js.truthy openaiApiKey then
    let contentGeneratorConfig :=
      ContentGeneratorConfig.set_apiKey openaiApiKey contentGeneratorConfig in
    Resolve contentGeneratorConfig
  else
    Resolve contentGeneratorConfig.

(** The config as constructed at lines 66-69. *)
Definition initialConfig (model authType : option string)
    (config : option ModelOverride) : ContentGeneratorConfig :=
  {| ContentGeneratorConfig.model := effectiveModel model config;
     ContentGeneratorConfig.apiKey := None;
     ContentGeneratorConfig.vertexai := None;
     ContentGeneratorConfig.authType := authType |}.

End CredentialResolver.

(** ** Requests and responses of the uniform interface *)

Module GenAI.

(** A sub-part: a string, or an object of which only [text] is read. *)
Inductive PartUnion : Type :=
| PartString (s : string)
| PartObject (text : Js.Property string).

(** One content value: a string, or an object of which [text] and [parts]
    are read. *)
Inductive ContentUnion : Type :=
| ContentString (s : string)
| ContentObject (text : Js.Property string) (parts : Js.Property (list PartUnion)).

(** [request.contents]: one value, an array of values, or nothing. *)
Inductive ContentListUnion : Type :=
| Single (c : ContentUnion)
| Many (l : list ContentUnion)
| Missing.

Record GenerateContentParameters : Type := {
  model : string;
  contents : ContentListUnion;
}.

Definition CountTokensParameters : Type := GenerateContentParameters.
Definition EmbedContentParameters : Type := GenerateContentParameters.

Record Part : Type := { text : option string }.
Record Content : Type := { parts : list Part }.
Record Candidate : Type := { content : Content }.
Record GenerateContentResponse : Type := { candidates : list Candidate }.

End GenAI.

(** What the factory passes to its two other collaborators. *)
Record HttpOptions : Type := { headers : gmap string string }.

Module GoogleGenAI.
Record Options : Type := {
  apiKey : option string;
  vertexai : option bool;
  httpOptions : HttpOptions;
}.
End GoogleGenAI.

Section Generator.

(** The stream, token-count and embedding results are SDK types; nothing
    in this file builds a value of them. *)
Context {AsyncGenerator CountTokensResponse EmbedContentResponse : Type}.

(** The interface [ContentGenerator]. *)
Record ContentGenerator : Type := {
  generateContent :
    GenAI.GenerateContentParameters -> Async GenAI.GenerateContentResponse;
  generateContentStream :
    GenAI.GenerateContentParameters -> Async AsyncGenerator;
  countTokens : GenAI.CountTokensParameters -> Async CountTokensResponse;
  embedContent : GenAI.EmbedContentParameters -> Async EmbedContentResponse;
}.

(** What [createContentGenerator] returns: the instance of the code-assist
    collaborator or the [models] object of the vendor client, each named
    by the arguments it was built from, or the object literal of lines
    142-185. *)
Inductive ContentGeneratorHandle : Type :=
| createCodeAssistContentGenerator (httpOptions : HttpOptions)
    (authType : option string) (sessionId : option string)
| GoogleGenAI_models (options : GoogleGenAI.Options)
| OpenAIContentGenerator (openai : OpenAI.Client) (g : ContentGenerator).

(** Line 154, the inner callback:
    [typeof p === 'string' ? p : (p.text ?? '')]. *)
Definition promptOfPart (p : GenAI.PartUnion) : string :=
  match p with
  | GenAI.PartString s => s
  | GenAI.PartObject text => Js.nullish (Js.get text) ""
  end.

(** Lines 150-157, the outer callback. *)
Definition promptOfContent (c : GenAI.ContentUnion) : string :=
  match c with
  | GenAI.ContentString s => s
  | GenAI.ContentObject text parts =>
      if Js.has text then Js.nullish (Js.get text) ""
      else
        match parts with
        | Js.Value ps => Js.join Js.LF (map promptOfPart ps)
        | Js.Absent | Js.Nullish => ""
        end
  end.

(** Lines 145-160. *)
Definition promptOf (contents : GenAI.ContentListUnion) : string :=
  match contents with
  | GenAI.Single (GenAI.ContentString s) => s
  | GenAI.Many l => Js.join Js.LF (map promptOfContent l)
  | GenAI.Single (GenAI.ContentObject text _) =>
      if Js.has text then Js.nullish (Js.get text) "" else ""
  | GenAI.Missing => ""
  end.

(** Line 162: [config.model || 'o4-mini']. *)
Definition sentModel (config : ContentGeneratorConfig) : string :=
  Js.or_string (Some (ContentGeneratorConfig.model config)) "o4-mini".

(** Lines 161-164. *)
Definition completionBody (config : ContentGeneratorConfig) (prompt : string) :
    OpenAI.CreateParams :=
  {| OpenAI.model := sentModel config;
     OpenAI.messages := [ {| OpenAI.role := "user"; OpenAI.content := Some prompt |} ] |}.

(** Lines 166-174; [completion.choices[0].message] on an empty array
    throws a [TypeError]. *)
Definition wrapCompletion (completion : OpenAI.ChatCompletion) :
    Async GenAI.GenerateContentResponse :=
  match OpenAI.choices completion with
  | [] => Reject (Js.TypeError "Cannot read properties of undefined (reading 'message')")
  | choice :: _ =>
      Resolve
        {| GenAI.candidates :=
             [ {| GenAI.content :=
                    {| GenAI.parts :=
                         [ {| GenAI.text := OpenAI.content (OpenAI.message choice) |} ]
                    |} |} ] |}
  end.

(** The object literal of lines 142-185, closed over [openai] and
    [config]. *)
Definition openaiContentGenerator (openai : OpenAI.Client)
    (config : ContentGeneratorConfig) : ContentGenerator :=
  {| generateContent := fun request =>
       let prompt := promptOf (GenAI.contents request) in
       const completion :=
         await chat_completions_create openai (completionBody config prompt) in
       wrapCompletion completion;
     generateContentStream := fun request =>
       Reject (Js.Error "OpenAI streaming not implemented");
     countTokens := fun request =>
       Reject (Js.Error "OpenAI token counting not implemented");
     embedContent := fun request =>
       Reject (Js.Error "OpenAI embedding not implemented") |}.

Definition createContentGenerator (process : Process)
    (config : ContentGeneratorConfig) (sessionId : option string) :
    Async ContentGeneratorHandle :=
  let version := Js.or_string (env process !! "CLI_VERSION") (version process) in
  let httpOptions :=
    {| headers :=
         {[ "User-Agent" :=
              "GeminiCLI/" +:+ version +:+ " (" +:+ platform process +:+ "; "
              +:+ arch process +:+ ")" ]} |} in
  let authType := ContentGeneratorConfig.authType config in
  if Js.strict_eq authType AuthType.LOGIN_WITH_GOOGLE then
    Resolve (createCodeAssistContentGenerator httpOptions authType sessionId)
  else if Js.strict_eq authType AuthType.USE_GEMINI
          || Js.strict_eq authType AuthType.USE_VERTEX_AI then
    let googleGenAI :=
      {| GoogleGenAI.apiKey :=
           if Js.strict_eq (ContentGeneratorConfig.apiKey config) ""
           then None else ContentGeneratorConfig.apiKey config;
         GoogleGenAI.vertexai := ContentGeneratorConfig.vertexai config;
         GoogleGenAI.httpOptions := httpOptions |} in
    Resolve (GoogleGenAI_models googleGenAI)
  else if Js.strict_eq authType AuthType.USE_OPENAI
          && Js.truthy (ContentGeneratorConfig.apiKey config) then
    let openai := {| OpenAI.apiKey := ContentGeneratorConfig.apiKey config |} in
    Resolve (OpenAIContentGenerator openai (openaiContentGenerator openai config))
  else
    Reject (Js.Error ("Error creating contentGenerator: Unsupported authType: "
                      +:+ Js.template authType)).

End Generator.

(** The error of line 188, by the mode it names. *)
Definition unsupportedAuthType (authType : option string) : Js.Exception :=
  Js.Error ("Error creating contentGenerator: Unsupported authType: "
            +:+ Js.template authType).

Arguments ContentGenerator : clear implicits.
Arguments ContentGeneratorHandle : clear implicits.

(** ** The specification's vocabulary *)

Module Spec.

(** The four known modes. *)
Definition knownAuthMode (authMode : option string) : bool :=
  Js.strict_eq authMode AuthType.LOGIN_WITH_GOOGLE
  || Js.strict_eq authMode AuthType.USE_GEMINI
  || Js.strict_eq authMode AuthType.USE_VERTEX_AI
  || Js.strict_eq authMode AuthType.USE_OPENAI.

(** The key-based modes: all but identity-login. *)
Definition keyBased (authMode : option string) : bool :=
  Js.strict_eq authMode AuthType.USE_GEMINI
  || Js.strict_eq authMode AuthType.USE_VERTEX_AI
  || Js.strict_eq authMode AuthType.USE_OPENAI.

(** The credentials a key-based mode requires are all set, and none of
    them to the empty string. *)
Definition credentialsSet (process : Process) (authMode : option string) : bool :=
  (Js.strict_eq authMode AuthType.USE_GEMINI
   && Js.truthy (env process !! "GEMINI_API_KEY"))
  || (Js.strict_eq authMode AuthType.USE_VERTEX_AI
      && (Js.truthy (env process !! "GOOGLE_API_KEY")
          && Js.truthy (env process !! "GOOGLE_CLOUD_PROJECT")
          && Js.truthy (env process !! "GOOGLE_CLOUD_LOCATION")))
  || (Js.strict_eq authMode AuthType.USE_OPENAI
      && Js.truthy (env process !! "OPENAI_API_KEY")).

(** The error kinds, recognised by the message of the thrown [Error]. *)
Definition UnsupportedAuthMode (e : Js.Exception) : Prop :=
  exists shown : string,
    e = Js.Error ("Error creating contentGenerator: Unsupported authType: " +:+ shown).

Definition NotImplemented (e : Js.Exception) : Prop :=
  exists what : string, e = Js.Error (what +:+ " not implemented").

(** The text of a sub-part: the string itself, or its text field. *)
Inductive SubPartText : GenAI.PartUnion -> string -> Prop :=
| sub_string (s : string) :
    SubPartText (GenAI.PartString s) s
| sub_text (t : string) :
    SubPartText (GenAI.PartObject (Js.Value t)) t
| sub_no_text (text : Js.Property string) :
    Js.get text = None -> SubPartText (GenAI.PartObject text) "".

(** The text of one content item, by the stated precedence. *)
Inductive ItemText : GenAI.ContentUnion -> string -> Prop :=
| item_string (s : string) :
    (* a plain string is used as-is *)
    ItemText (GenAI.ContentString s) s
| item_text (t : string) (parts : Js.Property (list GenAI.PartUnion)) :
    (* an object exposing a direct text field uses that field *)
    ItemText (GenAI.ContentObject (Js.Value t) parts) t
| item_text_empty (parts : Js.Property (list GenAI.PartUnion)) :
    (* ... empty string if absent *)
    ItemText (GenAI.ContentObject Js.Nullish parts) ""
| item_parts (ps : list GenAI.PartUnion) (ts : list string) :
    (* an object exposing a list of sub-parts joins their texts *)
    Forall2 SubPartText ps ts ->
    ItemText (GenAI.ContentObject Js.Absent (Js.Value ps)) (Js.join Js.LF ts)
| item_other (parts : Js.Property (list GenAI.PartUnion)) :
    (* any other shape contributes an empty string *)
    Js.get parts = None ->
    ItemText (GenAI.ContentObject Js.Absent parts) "".

(** The prompt of a request's contents: the newline-joined texts of a
    list's items; a single value by its string or its text field. *)
Inductive Prompt : GenAI.ContentListUnion -> string -> Prop :=
| prompt_many (items : list GenAI.ContentUnion) (ts : list string) :
    Forall2 ItemText items ts -> Prompt (GenAI.Many items) (Js.join Js.LF ts)
| prompt_string (s : string) :
    Prompt (GenAI.Single (GenAI.ContentString s)) s
| prompt_text (t : string) (parts : Js.Property (list GenAI.PartUnion)) :
    Prompt (GenAI.Single (GenAI.ContentObject (Js.Value t) parts)) t
| prompt_no_text (text : Js.Property string) (parts : Js.Property (list GenAI.PartUnion)) :
    Js.get text = None -> Prompt (GenAI.Single (GenAI.ContentObject text parts)) ""
| prompt_missing :
    Prompt GenAI.Missing "".

(** The precedence of the model's sources, read with "absent" as
    [undefined]: the override's result, else the requested model, else the
    default. *)
Definition modelByPresence (override requested : option string) (default : string) : string :=
  match override with
  | Some r => r
  | None =>
      match requested with
      | Some m => m
      | None => default
      end
  end.

End Spec.


(** ** How the resolver ends *)

Section Resolutions.

Variable DEFAULT_GEMINI_MODEL : string.

(** The four ways the resolver ends, each with the condition that selects
    it. *)
Inductive Resolution (process : Process) (model authType : option string)
    (config : option ModelOverride) : Async ContentGeneratorConfig -> Prop :=
| as_constructed :
    Spec.credentialsSet process authType = false ->
    Resolution process model authType config
      (Resolve (initialConfig DEFAULT_GEMINI_MODEL model authType config))
| direct_key (key : string) :
    authType = Some AuthType.USE_GEMINI ->
    env process !! "GEMINI_API_KEY" = Some key -> key <> "" ->
    Resolution process model authType config
      (Await (getEffectiveModel (Some key) (effectiveModel DEFAULT_GEMINI_MODEL model config))
         (fun m =>
            Resolve {| ContentGeneratorConfig.model := m;
                       ContentGeneratorConfig.apiKey := Some key;
                       ContentGeneratorConfig.vertexai := None;
                       ContentGeneratorConfig.authType := authType |}))
| cloud_key (key : string) :
    authType = Some AuthType.USE_VERTEX_AI ->
    env process !! "GOOGLE_API_KEY" = Some key -> key <> "" ->
    Js.truthy (env process !! "GOOGLE_CLOUD_PROJECT") = true ->
    Js.truthy (env process !! "GOOGLE_CLOUD_LOCATION") = true ->
    Resolution process model authType config
      (Await (getEffectiveModel (Some key) (effectiveModel DEFAULT_GEMINI_MODEL model config))
         (fun m =>
            Resolve {| ContentGeneratorConfig.model := m;
                       ContentGeneratorConfig.apiKey := Some key;
                       ContentGeneratorConfig.vertexai := Some true;
                       ContentGeneratorConfig.authType := authType |}))
| chat_key (key : string) :
    authType = Some AuthType.USE_OPENAI ->
    env process !! "OPENAI_API_KEY" = Some key -> key <> "" ->
    Resolution process model authType config
      (Resolve {| ContentGeneratorConfig.model := effectiveModel DEFAULT_GEMINI_MODEL model config;
                  ContentGeneratorConfig.apiKey := Some key;
                  ContentGeneratorConfig.vertexai := None;
                  ContentGeneratorConfig.authType := authType |}).

End Resolutions.

(** ** The override as a call that may throw *)

(** [config?: { getModel?: () => string }] where the function, being the
    caller's code, returns a string or throws. *)
Record FallibleOverride : Type := {
  getModelOrThrow : option (unit -> Js.Exception + string);
}.

(** [config?.getModel?.()]: [undefined], a string, or a thrown value. *)
Definition tryGetModel (config : option FallibleOverride) :
    option (Js.Exception + string) :=
  match config with
  | None => None
  | Some c =>
      match getModelOrThrow c with
      | None => None
      | Some f => Some (f tt)
      end
  end.

Section FallibleResolver.

Variable DEFAULT_GEMINI_MODEL : string.

(** The resolver with such an override: a throw at line 64 rejects the
    [async] function before anything else is done; a returned string is the
    override's result in the rest of the function. *)
Definition createContentGeneratorConfigOrThrow (process : Process)
    (model : option string) (authType : option string)
    (config : option FallibleOverride) : Async ContentGeneratorConfig :=
  match tryGetModel config with
  | Some (inl e) => Reject e
  | Some (inr s) =>
      createContentGeneratorConfig DEFAULT_GEMINI_MODEL process model authType
        (Some {| getModel := Some (fun _ => s) |})
  | None =>
      createContentGeneratorConfig DEFAULT_GEMINI_MODEL process model authType None
  end.

End FallibleResolver.

(** ** Observations on handles and requests *)

(** The header bundle a handle was built with; the chat-completion wrapper
    is built without one (line 140). *)
Definition headersOf {AsyncGenerator CountTokensResponse EmbedContentResponse : Type}
    (handle : ContentGeneratorHandle AsyncGenerator CountTokensResponse EmbedContentResponse) :
    option (gmap string string) :=
  match handle with
  | createCodeAssistContentGenerator httpOptions _ _ => Some (headers httpOptions)
  | GoogleGenAI_models options => Some (headers (GoogleGenAI.httpOptions options))
  | OpenAIContentGenerator _ _ => None
  end.

(** The user-agent string of line 116 for a given version. *)
Definition userAgent (process : Process) (v : string) : string :=
  "GeminiCLI/" +:+ v +:+ " (" +:+ platform process +:+ "; " +:+ arch process +:+ ")".

(** A sub-part written as a content item of its own. *)
Definition itemOfPart (p : GenAI.PartUnion) : GenAI.ContentUnion :=
  match p with
  | GenAI.PartString s => GenAI.ContentString s
  | GenAI.PartObject text => GenAI.ContentObject text Js.Absent
  end.


(** ** Sample processes, handlers and requests *)

Module Sample.

Definition DEFAULT_GEMINI_MODEL : string := "gemini-2.5-pro".

Definition processWith (e : gmap string string) : Process :=
  {| env := e; version := "v20.11.0"; platform := "linux"; arch := "x64" |}.

(** No credential variable is set. *)
Definition bare : Process := processWith ∅.

(** The image built from the repository's Dockerfile:
    [ENV OPENAI_API_KEY=""]. *)
Definition docker : Process := processWith {[ "OPENAI_API_KEY" := "" ]}.

Definition withGeminiKey : Process := processWith {[ "GEMINI_API_KEY" := "g-key" ]}.

Definition withOpenAIKey : Process := processWith {[ "OPENAI_API_KEY" := "sk-key" ]}.

Definition withCloud : Process :=
  processWith (<[ "GOOGLE_API_KEY" := "c-key" ]>
               (<[ "GOOGLE_CLOUD_PROJECT" := "proj" ]>
                {[ "GOOGLE_CLOUD_LOCATION" := "us-central1" ]})).

(** The cloud key and project are set, the location is not. *)
Definition withoutLocation : Process :=
  processWith (<[ "GOOGLE_API_KEY" := "c-key" ]> {[ "GOOGLE_CLOUD_PROJECT" := "proj" ]}).

Definition completionOf (text : option string) : OpenAI.ChatCompletion :=
  {| OpenAI.choices :=
       [ {| OpenAI.message := {| OpenAI.role := "assistant"; OpenAI.content := text |} |} ] |}.

(** A world where the Effective Model Resolver answers [m] and the
    chat-completion endpoint answers [completion]. *)
Definition answering (m : string) (completion : OpenAI.ChatCompletion) : Handler :=
  fun X c =>
    match c in Collaborator X return Js.Exception + X with
    | getEffectiveModel _ _ => inr m
    | chat_completions_create _ _ => inr completion
    end.

Definition hello : Handler := answering "gemini-2.5-flash" (completionOf (Some "hello")).

Definition openaiConfig : ContentGeneratorConfig :=
  {| ContentGeneratorConfig.model := "gpt-4o";
     ContentGeneratorConfig.apiKey := Some "sk-key";
     ContentGeneratorConfig.vertexai := None;
     ContentGeneratorConfig.authType := Some AuthType.USE_OPENAI |}.

(** The chat-completion mode with an empty string as its key. *)
Definition emptyKeyConfig : ContentGeneratorConfig :=
  {| ContentGeneratorConfig.model := "gpt-4o";
     ContentGeneratorConfig.apiKey := Some "";
     ContentGeneratorConfig.vertexai := None;
     ContentGeneratorConfig.authType := Some AuthType.USE_OPENAI |}.

(** [[ {text: "a"}, {parts: [{text: "b"}, "c"]} ]] *)
Definition abc : GenAI.ContentListUnion :=
  GenAI.Many
    [ GenAI.ContentObject (Js.Value "a") Js.Absent;
      GenAI.ContentObject Js.Absent
        (Js.Value [ GenAI.PartObject (Js.Value "b"); GenAI.PartString "c" ]) ].

Definition request (contents : GenAI.ContentListUnion) : GenAI.GenerateContentParameters :=
  {| GenAI.model := "any"; GenAI.contents := contents |}.

(** An override that answers the empty string. *)
Definition emptyOverride : ModelOverride := {| getModel := Some (fun _ => "") |}.

End Sample.

(** ** More sample worlds *)

(** An endpoint and a resolver that reject, an endpoint
    that answers a completion without a choice, and a process whose
    [CLI_VERSION] is set. *)
Definition rejecting (e : Js.Exception) : Handler := fun X _ => inl e.

Definition noChoice : Handler :=
  Sample.answering "gemini-2.5-flash" {| OpenAI.choices := [] |}.

Definition withCliVersion : Process :=
  Sample.processWith {[ "CLI_VERSION" := "0.1.5" ]}.

(** An override that throws. *)
Definition throwingOverride : FallibleOverride :=
  {| getModelOrThrow := Some (fun _ => inl (Js.Error "settings not loaded")) |}.

Definition geminiConfig (key : option string) : ContentGeneratorConfig :=
  {| ContentGeneratorConfig.model := "gemini-2.5-pro";
     ContentGeneratorConfig.apiKey := key;
     ContentGeneratorConfig.vertexai := None;
     ContentGeneratorConfig.authType := Some AuthType.USE_GEMINI |}.


(** * Properties *)

(** ** JavaScript operators *)

Lemma strict_eq_true (a : option string) (s : string) :
  Js.strict_eq a s = true <-> a = Some s.
Proof.
  destruct a as [x|]; simpl.
  - rewrite String.eqb_eq. split; congruence.
  - split; discriminate.
Qed.

Lemma truthy_true (v : option string) :
  Js.truthy v = true <-> exists s, v = Some s /\ s <> "".
Proof.
  destruct v as [x|]; simpl.
  - rewrite negb_true_iff, String.eqb_neq. split.
    + intros Hx. exists x. split; [reflexivity | exact Hx].
    + intros (s & Hs & Hne). congruence.
  - split; [discriminate | intros (s & Hs & _); discriminate].
Qed.

Lemma truthy_false (v : option string) :
  Js.truthy v = false <-> v = None \/ v = Some "".
Proof.
  destruct v as [x|]; simpl.
  - rewrite negb_false_iff, String.eqb_eq. split.
    + intros ->. right. reflexivity.
    + intros [H | H]; congruence.
  - split; [intros _; left; reflexivity | reflexivity].
Qed.

Lemma or_string_truthy (a : option string) (d s : string) :
  a = Some s -> s <> "" -> Js.or_string a d = s.
Proof.
  intros -> Hne. simpl. apply String.eqb_neq in Hne. rewrite Hne. reflexivity.
Qed.

Lemma or_string_falsy (a : option string) (d : string) :
  Js.truthy a = false -> Js.or_string a d = d.
Proof.
  intros H. apply truthy_false in H. destruct H as [-> | ->]; reflexivity.
Qed.

Lemma or_string_nonempty (a : option string) (d : string) :
  d <> "" -> Js.or_string a d <> "".
Proof.
  intros Hd. destruct a as [s|]; simpl; [|exact Hd].
  destruct (String.eqb s "") eqn:E; [exact Hd | apply String.eqb_neq; exact E].
Qed.

(** ** Running a computation *)

Lemma run_Resolve {R : Type} (h : Handler) (r : R) : run h (Resolve r) = ([], inr r).
Proof. reflexivity. Qed.

Lemma run_Await_answered {R X : Type} (h : Handler) (c : Collaborator X)
    (k : X -> Async R) (x : X) :
  h X c = inr x ->
  run h (Await c k) = (call c :: fst (run h (k x)), snd (run h (k x))).
Proof.
  intros Hx. simpl. rewrite Hx. destruct (run h (k x)); reflexivity.
Qed.

Lemma run_Await_rejected {R X : Type} (h : Handler) (c : Collaborator X)
    (k : X -> Async R) (e : Js.Exception) :
  h X c = inl e -> run h (Await c k) = ([call c], inl e).
Proof. intros He. simpl. rewrite He. reflexivity. Qed.

(** ** The credential resolver *)

Section ResolverProperties.

Variable DEFAULT_GEMINI_MODEL : string.

Local Abbreviation resolve := (createContentGeneratorConfig DEFAULT_GEMINI_MODEL).
Local Abbreviation initialModel := (effectiveModel DEFAULT_GEMINI_MODEL).
Local Abbreviation constructed := (initialConfig DEFAULT_GEMINI_MODEL).

(** Rewrites with the facts at hand about the mode and the environment. *)
Local Ltac known_facts :=
  repeat match goal with
         | H : ?a = Some _ |- context [?a] => rewrite H
         | H : Js.truthy ?v = _ |- context [Js.truthy ?v] => rewrite H
         | H : Js.strict_eq ?a ?c = _ |- context [Js.strict_eq ?a ?c] => rewrite H
         | H : ?k <> "" |- context [String.eqb ?k ""] =>
             rewrite (proj2 (String.eqb_neq k "") H)
         end.

Local Ltac credentials :=
  unfold Spec.credentialsSet; known_facts; simpl; known_facts; reflexivity.

(** The resolver reads five variables of the environment and nothing else
    of the process. *)
Lemma resolve_reads_five_variables (process process' : Process)
    (model authType : option string) (config : option ModelOverride) :
  (forall name,
     name ∈ [ "GEMINI_API_KEY"; "GOOGLE_API_KEY"; "GOOGLE_CLOUD_PROJECT";
              "GOOGLE_CLOUD_LOCATION"; "OPENAI_API_KEY" ] ->
     env process !! name = env process' !! name) ->
  resolve process model authType config = resolve process' model authType config.
Proof.
  intros Hsame. unfold createContentGeneratorConfig.
  rewrite !Hsame by set_solver. reflexivity.
Qed.

(** Setting any other variable changes nothing. *)
Lemma resolve_other_variable (process : Process) (name value : string)
    (model authType : option string) (config : option ModelOverride) :
  name ∉ [ "GEMINI_API_KEY"; "GOOGLE_API_KEY"; "GOOGLE_CLOUD_PROJECT";
           "GOOGLE_CLOUD_LOCATION"; "OPENAI_API_KEY" ] ->
  resolve {| env := <[ name := value ]> (env process);
             version := version process;
             platform := platform process;
             arch := arch process |} model authType config
  = resolve process model authType config.
Proof.
  intros Hother. apply resolve_reads_five_variables.
  intros read Hread. simpl. apply lookup_insert_ne.
  intros ->. contradiction.
Qed.

Lemma resolve_Resolution (process : Process) (model authType : option string)
    (config : option ModelOverride) :
  Resolution DEFAULT_GEMINI_MODEL process model authType config
    (resolve process model authType config).
Proof.
  unfold createContentGeneratorConfig.
  destruct (Js.strict_eq authType AuthType.LOGIN_WITH_GOOGLE) eqn:Hlogin.
  { apply strict_eq_true in Hlogin. subst authType.
    apply as_constructed. reflexivity. }
  destruct (Js.strict_eq authType AuthType.USE_GEMINI) eqn:Hgemini.
  { apply strict_eq_true in Hgemini. subst authType.
    destruct (Js.truthy (env process !! "GEMINI_API_KEY")) eqn:Hkey.
    - apply truthy_true in Hkey. destruct Hkey as (key & Hkey & Hne).
      rewrite Hkey. simpl. eapply direct_key; eauto.
    - simpl. apply as_constructed. credentials. }
  destruct (Js.strict_eq authType AuthType.USE_VERTEX_AI) eqn:Hvertex.
  { apply strict_eq_true in Hvertex. subst authType.
    destruct (Js.truthy (env process !! "GOOGLE_API_KEY")) eqn:Hkey;
      destruct (Js.truthy (env process !! "GOOGLE_CLOUD_PROJECT")) eqn:Hproj;
      destruct (Js.truthy (env process !! "GOOGLE_CLOUD_LOCATION")) eqn:Hloc;
      simpl;
      try (apply as_constructed; credentials).
    apply truthy_true in Hkey. destruct Hkey as (key & Hkey & Hne).
    rewrite Hkey. eapply cloud_key; eauto. }
  destruct (Js.strict_eq authType AuthType.USE_OPENAI) eqn:Hopenai.
  { apply strict_eq_true in Hopenai. subst authType.
    destruct (Js.truthy (env process !! "OPENAI_API_KEY")) eqn:Hkey.
    - apply truthy_true in Hkey. destruct Hkey as (key & Hkey & Hne).
      rewrite Hkey. simpl. eapply chat_key; eauto.
    - simpl. apply as_constructed. credentials. }
  simpl. apply as_constructed. credentials.
Qed.

(** What a returned config is, by the credentials of its mode. *)
Lemma resolve_returns (process : Process) (model authType : option string)
    (config : option ModelOverride) (h : Handler) (cfg : ContentGeneratorConfig) :
  outcome h (resolve process model authType config) = inr cfg ->
  ContentGeneratorConfig.authType cfg = authType
  /\ (Spec.credentialsSet process authType = false ->
      cfg = constructed model authType config)
  /\ (Spec.credentialsSet process authType = true ->
      exists key, ContentGeneratorConfig.apiKey cfg = Some key /\ key <> "")
  /\ (ContentGeneratorConfig.model cfg = initialModel model config
      \/ exists key, h _ (getEffectiveModel key (initialModel model config))
                     = inr (ContentGeneratorConfig.model cfg)).
Proof.
  unfold outcome.
  destruct (resolve_Resolution process model authType config)
    as [Hset | key Hmode Hkey Hne | key Hmode Hkey Hne Hproj Hloc | key Hmode Hkey Hne].
  - simpl. intros [= <-]. repeat split; try reflexivity.
    + intros Hyes. congruence.
    + left. reflexivity.
  - assert (Hset : Spec.credentialsSet process authType = true) by credentials.
    destruct (h string (getEffectiveModel (Some key) (initialModel model config)))
      as [e | m] eqn:Hm.
    { rewrite (run_Await_rejected _ _ _ _ Hm). discriminate. }
    rewrite (run_Await_answered _ _ _ _ Hm). simpl.
    intros [= <-]. simpl. repeat split.
    + congruence.
    + intros _. exists key. split; [reflexivity | exact Hne].
    + right. exists (Some key). exact Hm.
  - assert (Hset : Spec.credentialsSet process authType = true) by credentials.
    destruct (h string (getEffectiveModel (Some key) (initialModel model config)))
      as [e | m] eqn:Hm.
    { rewrite (run_Await_rejected _ _ _ _ Hm). discriminate. }
    rewrite (run_Await_answered _ _ _ _ Hm). simpl.
    intros [= <-]. simpl. repeat split.
    + congruence.
    + intros _. exists key. split; [reflexivity | exact Hne].
    + right. exists (Some key). exact Hm.
  - assert (Hset : Spec.credentialsSet process authType = true) by credentials.
    simpl. intros [= <-]. simpl. repeat split.
    + congruence.
    + intros _. exists key. split; [reflexivity | exact Hne].
    + left. reflexivity.
Qed.

(** C1, as amended.  A config returned by the resolver in a key-based mode
    has its [apiKey] present and non-empty exactly when the credentials the
    mode requires are all set to non-empty values in the environment;
    otherwise it is the config as constructed, with no [apiKey]. *)
Theorem resolver_apiKey_iff_credentials (process : Process)
    (model authType : option string) (config : option ModelOverride)
    (h : Handler) (cfg : ContentGeneratorConfig) :
  outcome h (resolve process model authType config) = inr cfg ->
  Spec.keyBased (ContentGeneratorConfig.authType cfg) = true ->
  ((exists key, ContentGeneratorConfig.apiKey cfg = Some key /\ key <> "")
   <-> Spec.credentialsSet process (ContentGeneratorConfig.authType cfg) = true)
  /\ (Spec.credentialsSet process (ContentGeneratorConfig.authType cfg) = false ->
      cfg = constructed model (ContentGeneratorConfig.authType cfg) config
      /\ ContentGeneratorConfig.apiKey cfg = None).
Proof.
  intros Hret _.
  destruct (resolve_returns _ _ _ _ _ _ Hret) as (Hmode & Hunset & Hset & _).
  rewrite Hmode.
  destruct (Spec.credentialsSet process authType) eqn:Hcred.
  - split; [| discriminate].
    split; [reflexivity | intros _; apply Hset; reflexivity].
  - rewrite (Hunset eq_refl). simpl. split; [| split; reflexivity].
    split; [intros (key & Hkey & _); discriminate | discriminate].
Qed.

(** C6.  In identity-login mode the resolver returns at once the config
    with only [model] and [authType] set, and calls no collaborator. *)
Theorem resolver_identity_login (process : Process) (model : option string)
    (config : option ModelOverride) (h : Handler) :
  resolve process model (Some AuthType.LOGIN_WITH_GOOGLE) config
  = Resolve {| ContentGeneratorConfig.model := initialModel model config;
               ContentGeneratorConfig.apiKey := None;
               ContentGeneratorConfig.vertexai := None;
               ContentGeneratorConfig.authType := Some AuthType.LOGIN_WITH_GOOGLE |}
  /\ run h (resolve process model (Some AuthType.LOGIN_WITH_GOOGLE) config)
     = ([], inr (constructed model (Some AuthType.LOGIN_WITH_GOOGLE) config)).
Proof. split; reflexivity. Qed.

(** C7.  In cloud-hosted mode the cloud settings are applied when the key,
    the project and the location are all three set (and non-empty), and then
    all at once; when any one is missing the resolver returns the config as
    constructed, with no key, no cloud flag and no call to the Effective
    Model Resolver; so the settings are applied only when all three are
    there. *)
Theorem resolver_cloud_all_or_nothing (process : Process) (model : option string)
    (config : option ModelOverride) :
  let key := env process !! "GOOGLE_API_KEY" in
  let project := env process !! "GOOGLE_CLOUD_PROJECT" in
  let location := env process !! "GOOGLE_CLOUD_LOCATION" in
  let program := resolve process model (Some AuthType.USE_VERTEX_AI) config in
  (Js.truthy key = true -> Js.truthy project = true -> Js.truthy location = true ->
   program
   = Await (getEffectiveModel key (initialModel model config))
       (fun m =>
          Resolve {| ContentGeneratorConfig.model := m;
                     ContentGeneratorConfig.apiKey := key;
                     ContentGeneratorConfig.vertexai := Some true;
                     ContentGeneratorConfig.authType := Some AuthType.USE_VERTEX_AI |}))
  /\ (key = None \/ project = None \/ location = None ->
      program = Resolve (constructed model (Some AuthType.USE_VERTEX_AI) config))
  /\ (program <> Resolve (constructed model (Some AuthType.USE_VERTEX_AI) config) ->
      is_Some key /\ is_Some project /\ is_Some location).
Proof.
  intros key project location program.
  assert (Hnone : Js.truthy key && Js.truthy project && Js.truthy location = false ->
                  program
                  = Resolve (constructed model (Some AuthType.USE_VERTEX_AI) config)).
  { intros Hf. subst program. unfold createContentGeneratorConfig. simpl.
    fold key project location. rewrite Hf. simpl.
    destruct (Js.truthy (env process !! "OPENAI_API_KEY")); reflexivity. }
  split; [| split].
  - intros Hk Hp Hl. subst program. unfold createContentGeneratorConfig. simpl.
    fold key project location. rewrite Hk, Hp, Hl. reflexivity.
  - intros Hmiss. apply Hnone.
    destruct Hmiss as [-> | [-> | ->]]; simpl;
      rewrite ?andb_false_r; reflexivity.
  - intros Hneq.
    destruct (Js.truthy key) eqn:Hk; [| exfalso; apply Hneq, Hnone; reflexivity].
    destruct (Js.truthy project) eqn:Hp; [| exfalso; apply Hneq, Hnone; reflexivity].
    destruct (Js.truthy location) eqn:Hl; [| exfalso; apply Hneq, Hnone; reflexivity].
    apply truthy_true in Hk, Hp, Hl.
    destruct Hk as (? & -> & _), Hp as (? & -> & _), Hl as (? & -> & _).
    repeat split; eexists; reflexivity.
Qed.

(** In chat-completion mode the resolver calls no collaborator, and the
    model it returns is the one computed at line 64, whatever the
    environment holds. *)
Lemma resolver_chat_model_untouched (process : Process) (model : option string)
    (config : option ModelOverride) (h : Handler) :
  calls h (resolve process model (Some AuthType.USE_OPENAI) config) = []
  /\ exists cfg,
       resolve process model (Some AuthType.USE_OPENAI) config = Resolve cfg
       /\ ContentGeneratorConfig.model cfg = initialModel model config.
Proof.
  unfold calls, createContentGeneratorConfig. simpl.
  destruct (Js.truthy (env process !! "OPENAI_API_KEY"));
    (split; [reflexivity | eexists; split; reflexivity]).
Qed.

(** C8, as amended.  In chat-completion mode, with the chat-completion key
    set to a non-empty value, the resolver sets [apiKey] to that key, leaves
    the model as computed at line 64, and never calls the Effective Model
    Resolver. *)
Theorem resolver_chat_key (process : Process) (model : option string)
    (config : option ModelOverride) (key : string) (h : Handler) :
  env process !! "OPENAI_API_KEY" = Some key ->
  key <> "" ->
  resolve process model (Some AuthType.USE_OPENAI) config
  = Resolve {| ContentGeneratorConfig.model := initialModel model config;
               ContentGeneratorConfig.apiKey := Some key;
               ContentGeneratorConfig.vertexai := None;
               ContentGeneratorConfig.authType := Some AuthType.USE_OPENAI |}
  /\ calls h (resolve process model (Some AuthType.USE_OPENAI) config) = [].
Proof.
  intros Hkey Hne.
  split; [| apply resolver_chat_model_untouched].
  unfold createContentGeneratorConfig. simpl. rewrite Hkey. simpl.
  apply String.eqb_neq in Hne. rewrite Hne. reflexivity.
Qed.

(** The model computed at line 64 is what every path of the resolver
    starts from: it is the model of a config returned without a call, and
    the model passed to the Effective Model Resolver otherwise. *)
Lemma resolver_starts_from_initialModel (process : Process)
    (model authType : option string) (config : option ModelOverride) :
  (exists cfg,
     resolve process model authType config = Resolve cfg
     /\ ContentGeneratorConfig.model cfg = initialModel model config)
  \/ (exists key k,
        resolve process model authType config
        = Await (getEffectiveModel key (initialModel model config)) k).
Proof.
  destruct (resolve_Resolution process model authType config).
  - left. eexists. split; reflexivity.
  - right. eexists _, _. reflexivity.
  - right. eexists _, _. reflexivity.
  - left. eexists. split; reflexivity.
Qed.

(** C9, as amended.  The model the resolver starts from is the override's
    result when that is a non-empty string; else the requested model when
    that is a non-empty string; else the default constant.  A source that is
    absent or the empty string gives way to the next one. *)
Theorem effectiveModel_precedence (process : Process)
    (model authType : option string) (config : option ModelOverride) :
  (forall r, callGetModel config = Some r -> r <> "" -> initialModel model config = r)
  /\ (forall m, Js.truthy (callGetModel config) = false ->
                model = Some m -> m <> "" -> initialModel model config = m)
  /\ (Js.truthy (callGetModel config) = false -> Js.truthy model = false ->
      initialModel model config = DEFAULT_GEMINI_MODEL)
  /\ ((exists cfg,
         resolve process model authType config = Resolve cfg
         /\ ContentGeneratorConfig.model cfg = initialModel model config)
      \/ (exists key k,
            resolve process model authType config
            = Await (getEffectiveModel key (initialModel model config)) k)).
Proof.
  unfold effectiveModel, Js.or.
  split; [| split; [| split]].
  - intros r Hr Hne. rewrite Hr. simpl.
    apply String.eqb_neq in Hne. rewrite Hne. simpl. rewrite Hne. reflexivity.
  - intros m Hover -> Hne. rewrite Hover. apply or_string_truthy with (s := m); auto.
  - intros Hover Hmodel. rewrite Hover. apply or_string_falsy. exact Hmodel.
  - apply resolver_starts_from_initialModel.
Qed.

(** With a non-empty default constant, a returned config has a non-empty
    model when the answers of the Effective Model Resolver are non-empty;
    and a returned config that the factory wraps in the chat-completion
    object has a non-empty model whatever those answers are. *)
Lemma resolver_model_by_source
    {AsyncGenerator CountTokensResponse EmbedContentResponse : Type}
    (process : Process) (model authType : option string)
    (config : option ModelOverride) (h : Handler) (cfg : ContentGeneratorConfig) :
  DEFAULT_GEMINI_MODEL <> "" ->
  outcome h (resolve process model authType config) = inr cfg ->
  ((forall key m answer, h _ (getEffectiveModel key m) = inr answer -> answer <> "") ->
   ContentGeneratorConfig.model cfg <> "")
  /\ (forall (process' : Process) (sessionId : option string) (openai : OpenAI.Client)
             (g : ContentGenerator AsyncGenerator CountTokensResponse EmbedContentResponse),
        createContentGenerator process' cfg sessionId
        = Resolve (OpenAIContentGenerator openai g) ->
        ContentGeneratorConfig.model cfg <> ""
        /\ sentModel cfg = ContentGeneratorConfig.model cfg).
Proof.
  intros Hdefault Hret.
  assert (Hinit : initialModel model config <> "").
  { unfold effectiveModel. apply or_string_nonempty. exact Hdefault. }
  destruct (resolve_returns _ _ _ _ _ _ Hret) as (Hmode & _ & _ & Hmodel).
  split.
  - intros Hanswers. destruct Hmodel as [-> | (key & Hm)]; [exact Hinit |].
    eapply Hanswers. exact Hm.
  - intros process' sessionId openai g Hcreate.
    assert (Hopenai : authType = Some AuthType.USE_OPENAI).
    { unfold createContentGenerator in Hcreate. rewrite Hmode in Hcreate.
      destruct (Js.strict_eq authType AuthType.LOGIN_WITH_GOOGLE); [discriminate |].
      destruct (Js.strict_eq authType AuthType.USE_GEMINI
                || Js.strict_eq authType AuthType.USE_VERTEX_AI); [discriminate |].
      destruct (Js.strict_eq authType AuthType.USE_OPENAI) eqn:Hmode'; [| discriminate].
      apply strict_eq_true. exact Hmode'. }
    destruct (resolver_chat_model_untouched process model config h) as (_ & cfg' & Hres & Hm).
    unfold outcome in Hret. rewrite Hopenai, Hres in Hret. simpl in Hret.
    injection Hret as <-.
    assert (Hne : ContentGeneratorConfig.model cfg' <> "") by (rewrite Hm; exact Hinit).
    split; [exact Hne |].
    unfold sentModel. simpl.
    apply String.eqb_neq in Hne. rewrite Hne. reflexivity.
Qed.


(** *** Further properties of the resolver *)

(** The run of the resolver, by the way it ends. *)
Lemma resolve_run (process : Process) (model authType : option string)
    (config : option ModelOverride) (h : Handler) :
  (Spec.credentialsSet process authType = false
   /\ run h (resolve process model authType config)
      = ([], inr (constructed model authType config)))
  \/ (exists key vertex,
        key <> ""
        /\ Spec.credentialsSet process authType = true
        /\ ((authType = Some AuthType.USE_GEMINI
             /\ env process !! "GEMINI_API_KEY" = Some key /\ vertex = None)
            \/ (authType = Some AuthType.USE_VERTEX_AI
                /\ env process !! "GOOGLE_API_KEY" = Some key /\ vertex = Some true))
        /\ run h (resolve process model authType config)
           = ([ call (getEffectiveModel (Some key) (initialModel model config)) ],
              match h _ (getEffectiveModel (Some key) (initialModel model config)) with
              | inl e => inl e
              | inr m =>
                  inr {| ContentGeneratorConfig.model := m;
                         ContentGeneratorConfig.apiKey := Some key;
                         ContentGeneratorConfig.vertexai := vertex;
                         ContentGeneratorConfig.authType := authType |}
              end))
  \/ (exists key,
        key <> ""
        /\ Spec.credentialsSet process authType = true
        /\ authType = Some AuthType.USE_OPENAI
        /\ env process !! "OPENAI_API_KEY" = Some key
        /\ run h (resolve process model authType config)
           = ([], inr {| ContentGeneratorConfig.model := initialModel model config;
                         ContentGeneratorConfig.apiKey := Some key;
                         ContentGeneratorConfig.vertexai := None;
                         ContentGeneratorConfig.authType := authType |})).
Proof.
  destruct (resolve_Resolution process model authType config)
    as [Hset | key Hmode Hkey Hne | key Hmode Hkey Hne Hproj Hloc | key Hmode Hkey Hne].
  - left. split; [exact Hset | reflexivity].
  - right. left. exists key, None.
    split; [exact Hne |]. split; [credentials |]. split; [left; auto |].
    simpl. destruct (h string _); reflexivity.
  - right. left. exists key, (Some true).
    split; [exact Hne |]. split; [credentials |]. split; [right; auto |].
    simpl. destruct (h string _); reflexivity.
  - right. right. exists key.
    split; [exact Hne |]. split; [credentials |]. auto.
Qed.

(** X1.  A returned config carries the mode it was asked for, and its
    cloud flag is [true] exactly when that mode is the cloud-hosted one and
    the cloud key, project and location are all set and non-empty; in every
    other case the flag is left unset. *)
Theorem resolver_cloud_flag (process : Process) (model authType : option string)
    (config : option ModelOverride) (h : Handler) (cfg : ContentGeneratorConfig) :
  outcome h (resolve process model authType config) = inr cfg ->
  ContentGeneratorConfig.authType cfg = authType
  /\ (ContentGeneratorConfig.vertexai cfg = Some true
      <-> authType = Some AuthType.USE_VERTEX_AI
          /\ Js.truthy (env process !! "GOOGLE_API_KEY") = true
          /\ Js.truthy (env process !! "GOOGLE_CLOUD_PROJECT") = true
          /\ Js.truthy (env process !! "GOOGLE_CLOUD_LOCATION") = true)
  /\ (ContentGeneratorConfig.vertexai cfg <> Some true ->
      ContentGeneratorConfig.vertexai cfg = None).
Proof.
  unfold outcome.
  destruct (resolve_Resolution process model authType config)
    as [Hset | key Hmode Hkey Hne | key Hmode Hkey Hne Hproj Hloc | key Hmode Hkey Hne];
    simpl.
  - intros [= <-]. simpl. split; [reflexivity |]. split; [| reflexivity].
    split; [discriminate |].
    intros (Hmode & Hk & Hp & Hl). exfalso.
    unfold Spec.credentialsSet in Hset. rewrite Hmode, Hk, Hp, Hl in Hset.
    discriminate.
  - destruct (h string _) as [e | m]; simpl; [discriminate |].
    intros [= <-]. simpl. split; [reflexivity |]. split; [| reflexivity].
    split; [discriminate | intros (Hv & _); rewrite Hmode in Hv; discriminate].
  - destruct (h string _) as [e | m]; simpl; [discriminate |].
    intros [= <-]. simpl. split; [reflexivity |]. split; [| congruence].
    split; [| reflexivity].
    intros _. repeat split; auto. rewrite Hkey. apply truthy_true. eauto.
  - intros [= <-]. simpl. split; [reflexivity |]. split; [| reflexivity].
    split; [discriminate | intros (Hv & _); rewrite Hmode in Hv; discriminate].
Qed.

(** X2.  In direct-key mode with the key set and non-empty, the resolver
    asks the Effective Model Resolver once, with that key and the model of
    line 64; it returns the key and the answered model, with no cloud flag;
    and when the Effective Model Resolver rejects, it rejects with the same
    error. *)
Theorem resolver_direct_key (process : Process) (model : option string)
    (config : option ModelOverride) (key : string) (h : Handler) :
  env process !! "GEMINI_API_KEY" = Some key ->
  key <> "" ->
  run h (resolve process model (Some AuthType.USE_GEMINI) config)
  = ([ call (getEffectiveModel (Some key) (initialModel model config)) ],
     match h _ (getEffectiveModel (Some key) (initialModel model config)) with
     | inl e => inl e
     | inr m =>
         inr {| ContentGeneratorConfig.model := m;
                ContentGeneratorConfig.apiKey := Some key;
                ContentGeneratorConfig.vertexai := None;
                ContentGeneratorConfig.authType := Some AuthType.USE_GEMINI |}
     end).
Proof.
  intros Hkey Hne. unfold createContentGeneratorConfig. simpl.
  rewrite Hkey. simpl. rewrite (proj2 (String.eqb_neq key "") Hne). simpl.
  destruct (h string _); reflexivity.
Qed.

(** X3.  The resolver calls the Effective Model Resolver at most once, and
    it calls it exactly when the mode is direct-key or cloud-hosted-key and
    the credentials of that mode are all set and non-empty; the model it
    passes is always the model of line 64. *)
Theorem resolver_calls (process : Process) (model authType : option string)
    (config : option ModelOverride) (h : Handler) :
  let trace := calls h (resolve process model authType config) in
  length trace <= 1
  /\ (trace <> []
      <-> (authType = Some AuthType.USE_GEMINI \/ authType = Some AuthType.USE_VERTEX_AI)
          /\ Spec.credentialsSet process authType = true)
  /\ (forall c, c ∈ trace ->
        exists key, c = call (getEffectiveModel key (initialModel model config))).
Proof.
  unfold calls. cbv zeta.
  destruct (resolve_run process model authType config h)
    as [(Hset & ->) | [(key & vertex & Hne & Hset & Hmode & ->) | (key & Hne & Hset & Hmode & _ & ->)]];
    simpl.
  - split; [lia |]. split.
    + split; [congruence | intros (_ & Hyes); congruence].
    + intros c Hc. inversion Hc.
  - split; [lia |]. split.
    + split; [| discriminate]. intros _. split; [| exact Hset].
      destruct Hmode as [(Hm & _) | (Hm & _)]; auto.
    + intros c Hc. apply list_elem_of_singleton in Hc. subst c. eauto.
  - split; [lia |]. split.
    + split; [congruence |]. intros ([Hm | Hm] & _); rewrite Hmode in Hm; discriminate.
    + intros c Hc. inversion Hc.
Qed.

(** Once line 64 has its model, the resolver rejects only with an error
    the Effective Model Resolver rejected with, and when the credentials of
    the mode are not all set it returns the config as constructed, under
    every handler. *)
Lemma resolver_rejects_only_with_collaborator (process : Process)
    (model authType : option string) (config : option ModelOverride) (h : Handler) :
  (forall e, outcome h (resolve process model authType config) = inl e ->
             exists key,
               h _ (getEffectiveModel key (initialModel model config)) = inl e)
  /\ (Spec.credentialsSet process authType = false ->
      run h (resolve process model authType config)
      = ([], inr (constructed model authType config)))
  /\ ((forall key m e, h _ (getEffectiveModel key m) <> inl e) ->
      exists cfg, outcome h (resolve process model authType config) = inr cfg).
Proof.
  unfold outcome.
  destruct (resolve_run process model authType config h)
    as [(Hset & ->) | [(key & vertex & Hne & Hset & Hmode & ->) | (key & Hne & Hset & Hmode & _ & ->)]];
    simpl.
  - split; [discriminate |]. split; [reflexivity | eauto].
  - split; [| split].
    + intros e. destruct (h string _) as [e' | m] eqn:Hm; [| discriminate].
      intros [= <-]. eauto.
    + congruence.
    + intros Hnever. destruct (h string _) as [e' | m] eqn:Hm; [| eauto].
      exfalso. eapply Hnever. exact Hm.
  - split; [discriminate |]. split; [congruence | eauto].
Qed.

(** X4.  With an override that may throw, the resolver rejects in exactly
    two ways: with what the override threw at line 64, before anything else
    is done and with no call made, or with an error the Effective Model
    Resolver rejected with.  When neither happens it returns a config; and
    when the override does not throw and the credentials of the mode are not
    all set, it returns a config with no key without calling anything. *)
Theorem resolver_rejections (process : Process) (model authType : option string)
    (config : option FallibleOverride) (h : Handler) :
  let program :=
    createContentGeneratorConfigOrThrow DEFAULT_GEMINI_MODEL process model authType
      config in
  (forall e, tryGetModel config = Some (inl e) -> run h program = ([], inl e))
  /\ (forall e,
        outcome h program = inl e ->
        tryGetModel config = Some (inl e)
        \/ exists key m, h _ (getEffectiveModel key m) = inl e)
  /\ ((forall e, tryGetModel config <> Some (inl e)) ->
      (forall key m e, h _ (getEffectiveModel key m) <> inl e) ->
      exists cfg, outcome h program = inr cfg)
  /\ ((forall e, tryGetModel config <> Some (inl e)) ->
      Spec.credentialsSet process authType = false ->
      exists cfg,
        run h program = ([], inr cfg)
        /\ ContentGeneratorConfig.apiKey cfg = None
        /\ ContentGeneratorConfig.authType cfg = authType).
Proof.
  cbv zeta. unfold createContentGeneratorConfigOrThrow.
  destruct (tryGetModel config) as [[thrown | s] |].
  - split; [intros e [= <-]; reflexivity |].
    split; [intros e [= <-]; left; reflexivity |].
    split; intros Hnothrown; exfalso; apply (Hnothrown thrown); reflexivity.
  - pose proof (resolver_rejects_only_with_collaborator process model authType
                  (Some {| getModel := Some (fun _ => s) |}) h)
      as (Honly & Hunset & Hreturns).
    split; [discriminate |].
    split; [intros e He; right; destruct (Honly e He) as (key & Hkey); eauto |].
    split; [intros _; exact Hreturns |].
    intros _ Hcred. eexists. split; [apply Hunset; exact Hcred | split; reflexivity].
  - pose proof (resolver_rejects_only_with_collaborator process model authType None h)
      as (Honly & Hunset & Hreturns).
    split; [discriminate |].
    split; [intros e He; right; destruct (Honly e He) as (key & Hkey); eauto |].
    split; [intros _; exact Hreturns |].
    intros _ Hcred. eexists. split; [apply Hunset; exact Hcred | split; reflexivity].
Qed.

(** X5.  The key of a returned config is always the value of the variable
    that belongs to the config's own mode: a key set for another mode is
    never used. *)
Theorem resolver_key_provenance (process : Process) (model authType : option string)
    (config : option ModelOverride) (h : Handler) (cfg : ContentGeneratorConfig)
    (key : string) :
  outcome h (resolve process model authType config) = inr cfg ->
  ContentGeneratorConfig.apiKey cfg = Some key ->
  (authType = Some AuthType.USE_GEMINI /\ env process !! "GEMINI_API_KEY" = Some key)
  \/ (authType = Some AuthType.USE_VERTEX_AI /\ env process !! "GOOGLE_API_KEY" = Some key)
  \/ (authType = Some AuthType.USE_OPENAI /\ env process !! "OPENAI_API_KEY" = Some key).
Proof.
  unfold outcome.
  destruct (resolve_run process model authType config h)
    as [(Hset & ->) | [(k & vertex & Hne & Hset & Hmode & ->) | (k & Hne & Hset & Hmode & Hkey & ->)]];
    simpl.
  - intros [= <-]. discriminate.
  - destruct (h string _) as [e | m]; [discriminate |].
    intros [= <-]. simpl. intros [= <-].
    destruct Hmode as [(Hm & Hk & _) | (Hm & Hk & _)]; auto.
  - intros [= <-]. simpl. intros [= <-]. auto.
Qed.

(** X6.  The resolver reads [GEMINI_API_KEY], [GOOGLE_API_KEY],
    [GOOGLE_CLOUD_PROJECT], [GOOGLE_CLOUD_LOCATION] and [OPENAI_API_KEY] and
    nothing else of the process: setting or unsetting any other variable
    leaves its result as it was. *)
Theorem resolver_environment_frame (process : Process) (name value : string)
    (model authType : option string) (config : option ModelOverride) :
  name ∉ [ "GEMINI_API_KEY"; "GOOGLE_API_KEY"; "GOOGLE_CLOUD_PROJECT";
           "GOOGLE_CLOUD_LOCATION"; "OPENAI_API_KEY" ] ->
  resolve {| env := <[ name := value ]> (env process);
             version := version process;
             platform := platform process;
             arch := arch process |} model authType config
  = resolve process model authType config
  /\ resolve {| env := delete name (env process);
                version := version process;
                platform := platform process;
                arch := arch process |} model authType config
     = resolve process model authType config.
Proof.
  intros Hother. split; apply resolve_reads_five_variables; intros read Hread; simpl.
  - apply lookup_insert_ne. intros ->. contradiction.
  - apply lookup_delete_ne. intros ->. contradiction.
Qed.


End ResolverProperties.

(** ** The factory *)

Section GeneratorProperties.

Context {AsyncGenerator CountTokensResponse EmbedContentResponse : Type}.

Local Abbreviation Generator :=
  (ContentGenerator AsyncGenerator CountTokensResponse EmbedContentResponse).
Local Abbreviation Handle :=
  (ContentGeneratorHandle AsyncGenerator CountTokensResponse EmbedContentResponse).
Local Abbreviation create :=
  (@createContentGenerator AsyncGenerator CountTokensResponse EmbedContentResponse).
Local Abbreviation wrapper :=
  (@openaiContentGenerator AsyncGenerator CountTokensResponse EmbedContentResponse).

Lemma unsupportedAuthType_kind (authType : option string) :
  Spec.UnsupportedAuthMode (unsupportedAuthType authType).
Proof. exists (Js.template authType). reflexivity. Qed.

(** The factory never awaits: it resolves to a handle or rejects with its
    own error, and it rejects exactly when no branch of the dispatch is
    taken. *)
Lemma create_dispatch (process : Process) (config : ContentGeneratorConfig)
    (sessionId : option string) :
  let authType := ContentGeneratorConfig.authType config in
  if Js.strict_eq authType AuthType.LOGIN_WITH_GOOGLE
     || Js.strict_eq authType AuthType.USE_GEMINI
     || Js.strict_eq authType AuthType.USE_VERTEX_AI
     || (Js.strict_eq authType AuthType.USE_OPENAI
         && Js.truthy (ContentGeneratorConfig.apiKey config))
  then exists handle : Handle, create process config sessionId = Resolve handle
  else create process config sessionId = Reject (unsupportedAuthType authType).
Proof.
  unfold createContentGenerator. cbv zeta.
  destruct (Js.strict_eq _ AuthType.LOGIN_WITH_GOOGLE); simpl; [eexists; reflexivity |].
  destruct (Js.strict_eq _ AuthType.USE_GEMINI); simpl; [eexists; reflexivity |].
  destruct (Js.strict_eq _ AuthType.USE_VERTEX_AI); simpl; [eexists; reflexivity |].
  destruct (Js.strict_eq _ AuthType.USE_OPENAI); simpl; [| reflexivity].
  destruct (Js.truthy _); simpl; [eexists; reflexivity | reflexivity].
Qed.

(** The claim's condition, as the dispatch tests it. *)
Lemma unsupported_iff (authType apiKey : option string) :
  Spec.knownAuthMode authType = false
  \/ (authType = Some AuthType.USE_OPENAI /\ (apiKey = None \/ apiKey = Some ""))
  <-> Js.strict_eq authType AuthType.LOGIN_WITH_GOOGLE
      || Js.strict_eq authType AuthType.USE_GEMINI
      || Js.strict_eq authType AuthType.USE_VERTEX_AI
      || (Js.strict_eq authType AuthType.USE_OPENAI && Js.truthy apiKey)
      = false.
Proof.
  unfold Spec.knownAuthMode. rewrite <- (truthy_false apiKey).
  destruct (Js.strict_eq authType AuthType.LOGIN_WITH_GOOGLE) eqn:Hlogin.
  { apply strict_eq_true in Hlogin. subst authType. simpl. intuition discriminate. }
  destruct (Js.strict_eq authType AuthType.USE_GEMINI) eqn:Hgemini.
  { apply strict_eq_true in Hgemini. subst authType. simpl. intuition discriminate. }
  destruct (Js.strict_eq authType AuthType.USE_VERTEX_AI) eqn:Hvertex.
  { apply strict_eq_true in Hvertex. subst authType. simpl. intuition discriminate. }
  destruct (Js.strict_eq authType AuthType.USE_OPENAI) eqn:Hopenai.
  { apply strict_eq_true in Hopenai. subst authType. simpl.
    destruct (Js.truthy apiKey); intuition discriminate. }
  simpl. split; [reflexivity | left; reflexivity].
Qed.

(** C2, as amended.  The factory fails with the unsupported-mode error
    exactly when the mode is none of the four known ones, or when it is the
    chat-completion mode and [apiKey] is absent or the empty string; in every
    other case it returns a handle. *)
Theorem factory_unsupported_iff (process : Process) (config : ContentGeneratorConfig)
    (sessionId : option string) :
  let authType := ContentGeneratorConfig.authType config in
  let apiKey := ContentGeneratorConfig.apiKey config in
  let unsupported :=
    Spec.knownAuthMode authType = false
    \/ (authType = Some AuthType.USE_OPENAI /\ (apiKey = None \/ apiKey = Some "")) in
  (create process config sessionId = Reject (unsupportedAuthType authType)
   <-> unsupported)
  /\ ((exists handle : Handle, create process config sessionId = Resolve handle)
      <-> ~ unsupported)
  /\ (forall e, create process config sessionId = Reject e ->
                Spec.UnsupportedAuthMode e).
Proof.
  intros authType apiKey unsupported.
  pose proof (create_dispatch process config sessionId) as Hd.
  cbv zeta in Hd. fold authType apiKey in Hd.
  pose proof (unsupported_iff authType apiKey) as Hiff. fold unsupported in Hiff.
  destruct (Js.strict_eq authType AuthType.LOGIN_WITH_GOOGLE
            || Js.strict_eq authType AuthType.USE_GEMINI
            || Js.strict_eq authType AuthType.USE_VERTEX_AI
            || (Js.strict_eq authType AuthType.USE_OPENAI && Js.truthy apiKey)).
  - destruct Hd as (handle & Hd). rewrite Hd. repeat split.
    + discriminate.
    + intros Hu. apply Hiff in Hu. discriminate.
    + intros _ Hu. apply Hiff in Hu. discriminate.
    + intros _. exists handle. reflexivity.
    + discriminate.
  - rewrite Hd. repeat split.
    + intros _. apply Hiff. reflexivity.
    + intros (handle & Hh). discriminate.
    + intros Hn. exfalso. apply Hn, Hiff. reflexivity.
    + intros e [= <-]. apply unsupportedAuthType_kind.
Qed.

(** ** The chat-completion wrapper *)

Lemma promptOfPart_SubPartText (p : GenAI.PartUnion) :
  Spec.SubPartText p (promptOfPart p).
Proof.
  destruct p as [s | [ | | t]]; simpl.
  - apply Spec.sub_string.
  - apply Spec.sub_no_text. reflexivity.
  - apply Spec.sub_no_text. reflexivity.
  - apply Spec.sub_text.
Qed.

Lemma SubPartText_functional (p : GenAI.PartUnion) (t : string) :
  Spec.SubPartText p t -> t = promptOfPart p.
Proof.
  intros H. destruct H as [s | t | text Hnone]; try reflexivity.
  simpl. rewrite Hnone. reflexivity.
Qed.

Lemma promptOfContent_ItemText (c : GenAI.ContentUnion) :
  Spec.ItemText c (promptOfContent c).
Proof.
  destruct c as [s | [ | | t] parts]; simpl.
  - apply Spec.item_string.
  - destruct parts as [ | | ps].
    + apply Spec.item_other. reflexivity.
    + apply Spec.item_other. reflexivity.
    + apply Spec.item_parts.
      induction ps as [| p ps IH]; simpl; constructor; auto using promptOfPart_SubPartText.
  - apply Spec.item_text_empty.
  - apply Spec.item_text.
Qed.

Lemma Forall2_functional {A : Type} (R : A -> string -> Prop) (f : A -> string)
    (l : list A) (ts : list string) :
  (forall a t, R a t -> t = f a) -> Forall2 R l ts -> ts = map f l.
Proof.
  intros Hf H. induction H as [| a t l ts Hat _ IH]; simpl; [reflexivity |].
  rewrite (Hf a t Hat), IH. reflexivity.
Qed.

Lemma ItemText_functional (c : GenAI.ContentUnion) (t : string) :
  Spec.ItemText c t -> t = promptOfContent c.
Proof.
  intros H. destruct H as [s | t parts | parts | ps ts Hps | parts Hnone]; simpl;
    try reflexivity.
  - rewrite (Forall2_functional _ _ _ _ SubPartText_functional Hps). reflexivity.
  - destruct parts; simpl in *; [reflexivity | reflexivity | discriminate].
Qed.

Lemma promptOf_Prompt (contents : GenAI.ContentListUnion) :
  Spec.Prompt contents (promptOf contents).
Proof.
  destruct contents as [[s | [ | | t] parts] | items |]; simpl.
  - apply Spec.prompt_string.
  - apply Spec.prompt_no_text. reflexivity.
  - apply Spec.prompt_no_text. reflexivity.
  - apply Spec.prompt_text.
  - apply Spec.prompt_many.
    induction items as [| c items IH]; simpl; constructor;
      auto using promptOfContent_ItemText.
  - apply Spec.prompt_missing.
Qed.

Lemma Prompt_functional (contents : GenAI.ContentListUnion) (prompt : string) :
  Spec.Prompt contents prompt -> prompt = promptOf contents.
Proof.
  intros H. destruct H as [items ts Hitems | s | t parts | text parts Hnone |]; simpl;
    try reflexivity.
  - rewrite (Forall2_functional _ _ _ _ ItemText_functional Hitems). reflexivity.
  - destruct text; simpl in *; [reflexivity | reflexivity | discriminate].
Qed.

(** [generateContent] makes one call, to the chat-completion endpoint, with
    the flattened prompt as the only message. *)
Lemma generateContent_calls (openai : OpenAI.Client) (config : ContentGeneratorConfig)
    (request : GenAI.GenerateContentParameters) (h : Handler) :
  calls h (generateContent (wrapper openai config) request)
  = [ call (chat_completions_create openai
              (completionBody config (promptOf (GenAI.contents request)))) ].
Proof.
  unfold calls. simpl.
  destruct (h _ _) as [e | completion]; [reflexivity |].
  unfold wrapCompletion. destruct (OpenAI.choices completion); reflexivity.
Qed.

(** C3.  For every request, the one message [generateContent] sends is the
    user message whose content is the prompt the flattening rule gives for
    the request's contents, and that rule gives no other prompt; for the
    contents [[ {text: "a"}, {parts: [{text: "b"}, "c"]} ]] the prompt is
    ["a\nb\nc"]. *)
Theorem generateContent_flattens (openai : OpenAI.Client)
    (config : ContentGeneratorConfig) (request : GenAI.GenerateContentParameters)
    (h : Handler) :
  (exists prompt : string,
     Spec.Prompt (GenAI.contents request) prompt
     /\ (forall other, Spec.Prompt (GenAI.contents request) other -> other = prompt)
     /\ calls h (generateContent (wrapper openai config) request)
        = [ call (chat_completions_create openai
                    {| OpenAI.model := sentModel config;
                       OpenAI.messages :=
                         [ {| OpenAI.role := "user";
                              OpenAI.content := Some prompt |} ] |}) ])
  /\ calls h (generateContent (wrapper openai config) (Sample.request Sample.abc))
     = [ call (chat_completions_create openai
                 {| OpenAI.model := sentModel config;
                    OpenAI.messages :=
                      [ {| OpenAI.role := "user";
                           OpenAI.content :=
                             Some ("a" +:+ Js.LF +:+ "b" +:+ Js.LF +:+ "c") |} ] |}) ].
Proof.
  split.
  - exists (promptOf (GenAI.contents request)).
    split; [apply promptOf_Prompt |].
    split; [intros other; apply Prompt_functional |].
    rewrite generateContent_calls. reflexivity.
  - rewrite generateContent_calls. reflexivity.
Qed.

(** C4, as amended.  When the endpoint answers a completion that holds at
    least one choice, [generateContent] returns the response with exactly one
    candidate, whose content holds exactly one part, whose text is the
    content of the completion's first message, as it is. *)
Theorem generateContent_wraps_completion (openai : OpenAI.Client)
    (config : ContentGeneratorConfig) (request : GenAI.GenerateContentParameters)
    (h : Handler) (completion : OpenAI.ChatCompletion)
    (choice : OpenAI.Choice) (rest : list OpenAI.Choice) :
  h _ (chat_completions_create openai
         (completionBody config (promptOf (GenAI.contents request))))
  = inr completion ->
  OpenAI.choices completion = choice :: rest ->
  outcome h (generateContent (wrapper openai config) request)
  = inr {| GenAI.candidates :=
             [ {| GenAI.content :=
                    {| GenAI.parts :=
                         [ {| GenAI.text := OpenAI.content (OpenAI.message choice) |} ]
                    |} |} ] |}.
Proof.
  intros Hanswer Hchoices. unfold outcome. simpl.
  rewrite Hanswer. unfold wrapCompletion. rewrite Hchoices. reflexivity.
Qed.

(** The handle of the chat-completion mode is the wrapper closed over the
    config and a client built from the config's key. *)
Lemma create_wrapper (process : Process) (config : ContentGeneratorConfig)
    (sessionId : option string) (openai : OpenAI.Client) (g : Generator) :
  create process config sessionId = Resolve (OpenAIContentGenerator openai g) ->
  openai = {| OpenAI.apiKey := ContentGeneratorConfig.apiKey config |}
  /\ g = wrapper openai config
  /\ ContentGeneratorConfig.authType config = Some AuthType.USE_OPENAI.
Proof.
  unfold createContentGenerator. cbv zeta.
  destruct (Js.strict_eq _ AuthType.LOGIN_WITH_GOOGLE); [discriminate |].
  destruct (_ || _); [discriminate |].
  destruct (Js.strict_eq _ AuthType.USE_OPENAI) eqn:Hmode; [| discriminate].
  destruct (Js.truthy _); [| discriminate].
  simpl. intros [= <- <-]. apply strict_eq_true in Hmode. auto.
Qed.

(** C5.  Whatever the request, [generateContentStream], [countTokens] and
    [embedContent] of the wrapper reject with a not-implemented error, and
    call nothing. *)
Theorem wrapper_not_implemented (openai : OpenAI.Client)
    (config : ContentGeneratorConfig) (h : Handler) :
  let streaming := Js.Error "OpenAI streaming not implemented" in
  let counting := Js.Error "OpenAI token counting not implemented" in
  let embedding := Js.Error "OpenAI embedding not implemented" in
  (forall request,
     run h (generateContentStream (wrapper openai config) request) = ([], inl streaming))
  /\ (forall request,
        run h (countTokens (wrapper openai config) request) = ([], inl counting))
  /\ (forall request,
        run h (embedContent (wrapper openai config) request) = ([], inl embedding))
  /\ Spec.NotImplemented streaming
  /\ Spec.NotImplemented counting
  /\ Spec.NotImplemented embedding.
Proof.
  cbv zeta. repeat split.
  - exists "OpenAI streaming". reflexivity.
  - exists "OpenAI token counting". reflexivity.
  - exists "OpenAI embedding". reflexivity.
Qed.

(** *** Further properties of the factory *)

(** X7.  A handle of the identity or SDK modes carries exactly one header,
    the user agent, built from [CLI_VERSION] when that variable is set and
    non-empty and from the runtime's version otherwise; the chat-completion
    wrapper carries no header. *)
Theorem factory_user_agent (process : Process) (config : ContentGeneratorConfig)
    (sessionId : option string) (handle : Handle) :
  create process config sessionId = Resolve handle ->
  (ContentGeneratorConfig.authType config = Some AuthType.USE_OPENAI
   /\ headersOf handle = None)
  \/ (exists v,
        headersOf handle = Some {[ "User-Agent" := userAgent process v ]}
        /\ ((env process !! "CLI_VERSION" = Some v /\ v <> "")
            \/ (Js.truthy (env process !! "CLI_VERSION") = false
                /\ v = version process))).
Proof.
  assert (Hv : exists v,
             Js.or_string (env process !! "CLI_VERSION") (version process) = v
             /\ ((env process !! "CLI_VERSION" = Some v /\ v <> "")
                 \/ (Js.truthy (env process !! "CLI_VERSION") = false
                     /\ v = version process))).
  { destruct (Js.truthy (env process !! "CLI_VERSION")) eqn:Hcli.
    - apply truthy_true in Hcli. destruct Hcli as (v & Hcli & Hne).
      exists v. split; [apply or_string_truthy with (s := v); assumption | left; auto].
    - exists (version process). split; [apply or_string_falsy; exact Hcli | right; auto]. }
  destruct Hv as (v & Hor & Hv).
  unfold createContentGenerator. cbv zeta. rewrite Hor.
  destruct (Js.strict_eq _ AuthType.LOGIN_WITH_GOOGLE).
  { intros [= <-]. right. exists v. split; [reflexivity | exact Hv]. }
  destruct (_ || _).
  { intros [= <-]. right. exists v. split; [reflexivity | exact Hv]. }
  destruct (Js.strict_eq _ AuthType.USE_OPENAI) eqn:Hmode; simpl; [| discriminate].
  destruct (Js.truthy (ContentGeneratorConfig.apiKey config)); [| discriminate].
  intros [= <-]. left. split; [apply strict_eq_true; exact Hmode | reflexivity].
Qed.

(** X8.  In the direct-key and cloud-hosted modes the factory never fails,
    key or no key: it builds the vendor client with the config's cloud flag
    and with the config's key, except that an empty-string key is passed as
    no key at all. *)
Theorem factory_sdk_modes (process : Process) (config : ContentGeneratorConfig)
    (sessionId : option string) :
  ContentGeneratorConfig.authType config = Some AuthType.USE_GEMINI
  \/ ContentGeneratorConfig.authType config = Some AuthType.USE_VERTEX_AI ->
  exists options,
    create process config sessionId = Resolve (GoogleGenAI_models options)
    /\ GoogleGenAI.vertexai options = ContentGeneratorConfig.vertexai config
    /\ GoogleGenAI.apiKey options <> Some ""
    /\ (ContentGeneratorConfig.apiKey config <> Some "" ->
        GoogleGenAI.apiKey options = ContentGeneratorConfig.apiKey config)
    /\ (ContentGeneratorConfig.apiKey config = Some "" ->
        GoogleGenAI.apiKey options = None).
Proof.
  intros Hmode. unfold createContentGenerator. cbv zeta.
  assert (Hsdk : Js.strict_eq (ContentGeneratorConfig.authType config)
                   AuthType.LOGIN_WITH_GOOGLE = false
                 /\ (Js.strict_eq (ContentGeneratorConfig.authType config)
                       AuthType.USE_GEMINI
                     || Js.strict_eq (ContentGeneratorConfig.authType config)
                          AuthType.USE_VERTEX_AI) = true).
  { destruct Hmode as [-> | ->]; split; reflexivity. }
  destruct Hsdk as (-> & ->).
  eexists. split; [reflexivity |]. simpl. split; [reflexivity |].
  destruct (ContentGeneratorConfig.apiKey config) as [k |]; simpl.
  - destruct (String.eqb k "") eqn:Hk.
    + apply String.eqb_eq in Hk. subst k. repeat split; congruence.
    + apply String.eqb_neq in Hk. repeat split; congruence.
  - repeat split; congruence.
Qed.

(** *** Further properties of the chat-completion wrapper *)

(** X10.  [generateContent] fails in exactly two ways: with the error the
    endpoint rejected with, or with a [TypeError] when the endpoint answered
    a completion that has no choice; in both the endpoint was called once and
    nothing else was. *)
Theorem generateContent_failures (openai : OpenAI.Client)
    (config : ContentGeneratorConfig) (request : GenAI.GenerateContentParameters)
    (h : Handler) :
  let endpoint :=
    chat_completions_create openai
      (completionBody config (promptOf (GenAI.contents request))) in
  let program := generateContent (wrapper openai config) request in
  (forall e, h _ endpoint = inl e -> run h program = ([call endpoint], inl e))
  /\ (forall completion,
        h _ endpoint = inr completion -> OpenAI.choices completion = [] ->
        exists message, run h program = ([call endpoint], inl (Js.TypeError message)))
  /\ (forall e,
        outcome h program = inl e ->
        h _ endpoint = inl e
        \/ exists completion message,
             h _ endpoint = inr completion
             /\ OpenAI.choices completion = []
             /\ e = Js.TypeError message).
Proof.
  cbv zeta. unfold outcome. simpl. split; [| split].
  - intros e ->. reflexivity.
  - intros completion -> Hnone. unfold wrapCompletion. rewrite Hnone.
    eexists. reflexivity.
  - intros e. destruct (h _ _) as [e' | completion] eqn:Hanswer; simpl.
    + intros [= <-]. left. reflexivity.
    + unfold wrapCompletion.
      destruct (OpenAI.choices completion) as [| choice rest] eqn:Hchoices; simpl.
      * intros [= <-]. right. eexists _, _. repeat split; eauto.
      * discriminate.
Qed.

(** X11.  [generateContent] does not read the model of the request: two
    requests with the same contents give the same computation, and the model
    it sends is the config's, or ['o4-mini'] when the config's model is the
    empty string. *)
Theorem generateContent_ignores_request_model (openai : OpenAI.Client)
    (config : ContentGeneratorConfig)
    (request request' : GenAI.GenerateContentParameters) (h : Handler) :
  GenAI.contents request = GenAI.contents request' ->
  generateContent (wrapper openai config) request
  = generateContent (wrapper openai config) request'
  /\ exists body,
       calls h (generateContent (wrapper openai config) request)
       = [ call (chat_completions_create openai body) ]
       /\ (ContentGeneratorConfig.model config <> "" ->
           OpenAI.model body = ContentGeneratorConfig.model config)
       /\ (ContentGeneratorConfig.model config = "" -> OpenAI.model body = "o4-mini").
Proof.
  intros Hsame. split.
  - simpl. rewrite Hsame. reflexivity.
  - eexists. split; [apply generateContent_calls |]. simpl. unfold sentModel. simpl.
    split.
    + intros Hne. apply String.eqb_neq in Hne. rewrite Hne. reflexivity.
    + intros ->. reflexivity.
Qed.

(** *** Further properties of the flattening *)

Lemma join_cons (sep s : string) (l : list string) :
  l <> [] -> Js.join sep (s :: l) = s +:+ sep +:+ Js.join sep l.
Proof. destruct l; [congruence | reflexivity]. Qed.

Lemma append_assoc (a b c : string) : (a +:+ b) +:+ c = a +:+ (b +:+ c).
Proof.
  induction a as [| x a IH]; [reflexivity |].
  change (String x ((a +:+ b) +:+ c) = String x (a +:+ (b +:+ c))).
  rewrite IH. reflexivity.
Qed.

Lemma append_length (a b : string) :
  String.length (a +:+ b) = String.length a + String.length b.
Proof.
  induction a as [| x a IH]; [reflexivity |].
  change (S (String.length (a +:+ b)) = S (String.length a + String.length b)).
  rewrite IH. reflexivity.
Qed.

Lemma join_app (sep : string) (l1 l2 : list string) :
  l1 <> [] -> l2 <> [] ->
  Js.join sep (l1 ++ l2) = Js.join sep l1 +:+ sep +:+ Js.join sep l2.
Proof.
  intros H1 H2. induction l1 as [| s l1 IH]; [congruence |].
  destruct l1 as [| s' l1].
  - simpl app. rewrite join_cons by exact H2. reflexivity.
  - change ((s :: s' :: l1) ++ l2)%list with (s :: (s' :: l1) ++ l2)%list.
    rewrite join_cons by discriminate.
    rewrite IH by discriminate.
    rewrite (join_cons sep s (s' :: l1)) by discriminate.
    rewrite !append_assoc. reflexivity.
Qed.

(** X12.  Flattening a list of items in two pieces and joining the two
    prompts with a newline is flattening the whole list, when neither piece
    is empty; the empty list flattens to the empty prompt. *)
Theorem promptOf_app (items items' : list GenAI.ContentUnion) :
  promptOf (GenAI.Many []) = ""
  /\ (items <> [] -> items' <> [] ->
      promptOf (GenAI.Many (items ++ items'))
      = promptOf (GenAI.Many items) +:+ Js.LF +:+ promptOf (GenAI.Many items')).
Proof.
  split; [reflexivity |].
  intros H1 H2. simpl. rewrite map_app. apply join_app.
  - destruct items; [congruence | discriminate].
  - destruct items'; [congruence | discriminate].
Qed.

Lemma promptOfContent_itemOfPart (p : GenAI.PartUnion) :
  promptOfContent (itemOfPart p) = promptOfPart p.
Proof. destruct p as [s | [ | | t]]; reflexivity. Qed.

Lemma join_middle (sep : string) (before after middle : list string) (s : string) :
  Js.join sep middle = s -> middle <> [] ->
  Js.join sep (before ++ middle ++ after) = Js.join sep (before ++ s :: after).
Proof.
  intros Hs Hne.
  destruct before as [| b before]; destruct after as [| a after].
  - simpl app. rewrite app_nil_r. exact Hs.
  - simpl app. rewrite join_app by (exact Hne || discriminate).
    rewrite (join_cons sep s (a :: after)) by discriminate. rewrite Hs. reflexivity.
  - rewrite app_nil_r.
    rewrite (join_app sep (b :: before) middle) by (exact Hne || discriminate).
    rewrite (join_app sep (b :: before) [s]) by discriminate.
    rewrite Hs. reflexivity.
  - rewrite (join_app sep (b :: before) (middle ++ a :: after)).
    + rewrite (join_app sep middle (a :: after)) by (exact Hne || discriminate).
      rewrite (join_app sep (b :: before) (s :: a :: after)) by discriminate.
      rewrite (join_cons sep s (a :: after)) by discriminate.
      rewrite Hs. reflexivity.
    + discriminate.
    + destruct middle; [congruence | discriminate].
Qed.

(** X13.  An item that has only a non-empty list of sub-parts flattens as
    if its sub-parts stood in the list in its place. *)
Theorem promptOf_inline_parts (before after : list GenAI.ContentUnion)
    (ps : list GenAI.PartUnion) :
  ps <> [] ->
  promptOf (GenAI.Many
              (before ++ GenAI.ContentObject Js.Absent (Js.Value ps) :: after))
  = promptOf (GenAI.Many (before ++ map itemOfPart ps ++ after)).
Proof.
  intros Hne. simpl. rewrite !map_app. simpl. symmetry.
  apply join_middle.
  - rewrite map_map. f_equal. apply map_ext. apply promptOfContent_itemOfPart.
  - destruct ps; [congruence | discriminate].
Qed.

(** X14.  Flattening neither drops nor adds a character besides the
    separators: the prompt of a list is as long as its items' texts together,
    plus one newline between each two items. *)
Theorem promptOf_length (items : list GenAI.ContentUnion) :
  String.length (promptOf (GenAI.Many items))
  = list_sum (map (fun c => String.length (promptOfContent c)) items)
    + pred (length items).
Proof.
  simpl. induction items as [| c items IH]; [reflexivity |].
  destruct items as [| c' items].
  - simpl. lia.
  - change (map promptOfContent (c :: c' :: items))
      with (promptOfContent c :: map promptOfContent (c' :: items)).
    rewrite join_cons by discriminate.
    rewrite !append_length, IH. simpl. lia.
Qed.

(** X15.  A single value is flattened as the one-item list that holds it,
    except that its sub-parts are not read: a single object without a text
    key gives the empty prompt whatever its sub-parts are. *)
Theorem promptOf_single (c : GenAI.ContentUnion) :
  promptOf (GenAI.Single c) = promptOf (GenAI.Many [c])
  \/ (exists ps,
        c = GenAI.ContentObject Js.Absent (Js.Value ps)
        /\ promptOf (GenAI.Single c) = ""
        /\ promptOf (GenAI.Many [c]) = Js.join Js.LF (map promptOfPart ps)).
Proof.
  destruct c as [s | [ | | t] [ | | ps]]; simpl; eauto.
Qed.


End GeneratorProperties.

(** ** The resolver followed by the factory *)

Section PipelineProperties.

Variable DEFAULT_GEMINI_MODEL : string.

Context {AsyncGenerator CountTokensResponse EmbedContentResponse : Type}.

Local Abbreviation resolve := (createContentGeneratorConfig DEFAULT_GEMINI_MODEL).
Local Abbreviation initialModel := (effectiveModel DEFAULT_GEMINI_MODEL).
Local Abbreviation Handle :=
  (ContentGeneratorHandle AsyncGenerator CountTokensResponse EmbedContentResponse).
Local Abbreviation create :=
  (@createContentGenerator AsyncGenerator CountTokensResponse EmbedContentResponse).
Local Abbreviation wrapper :=
  (@openaiContentGenerator AsyncGenerator CountTokensResponse EmbedContentResponse).

(** In chat-completion mode the key of a returned config is usable exactly
    when the variable is. *)
Lemma resolved_chat_key_truthy (process : Process) (model : option string)
    (config : option ModelOverride) (h : Handler) (cfg : ContentGeneratorConfig) :
  outcome h (resolve process model (Some AuthType.USE_OPENAI) config) = inr cfg ->
  Js.truthy (ContentGeneratorConfig.apiKey cfg)
  = Js.truthy (env process !! "OPENAI_API_KEY").
Proof.
  unfold outcome, createContentGeneratorConfig. simpl.
  destruct (Js.truthy (env process !! "OPENAI_API_KEY")) eqn:Hkey; simpl;
    intros [= <-]; simpl; [exact Hkey | reflexivity].
Qed.

(** X16.  The resolver followed by the factory, in chat-completion mode:
    when [OPENAI_API_KEY] is set and non-empty the factory returns the
    wrapper over a client built with that key, closed over a config whose
    model is the model of line 64; when the variable is unset or empty the
    resolver returns all the same and it is the factory that fails, with the
    unsupported-mode error. *)
Theorem pipeline_chat_completion (process process' : Process) (model : option string)
    (config : option ModelOverride) (sessionId : option string) :
  exists cfg,
    resolve process model (Some AuthType.USE_OPENAI) config = Resolve cfg
    /\ ContentGeneratorConfig.model cfg = initialModel model config
    /\ (forall key,
          env process !! "OPENAI_API_KEY" = Some key -> key <> "" ->
          create process' cfg sessionId
          = Resolve (OpenAIContentGenerator {| OpenAI.apiKey := Some key |}
                       (wrapper {| OpenAI.apiKey := Some key |} cfg)))
    /\ (Js.truthy (env process !! "OPENAI_API_KEY") = false ->
        create process' cfg sessionId
        = Reject (unsupportedAuthType (Some AuthType.USE_OPENAI))).
Proof.
  unfold createContentGeneratorConfig. simpl.
  destruct (Js.truthy (env process !! "OPENAI_API_KEY")) eqn:Hkey; simpl.
  - apply truthy_true in Hkey. destruct Hkey as (key & Hkey & Hne).
    eexists. split; [reflexivity |]. split; [reflexivity |]. split; [| discriminate].
    intros key' Hkey' _. rewrite Hkey in Hkey' |- *. injection Hkey' as <-.
    unfold createContentGenerator. simpl.
    rewrite (proj2 (String.eqb_neq key "") Hne). reflexivity.
  - eexists. split; [reflexivity |]. split; [reflexivity |]. split; [| reflexivity].
    intros key Hk Hne. exfalso. apply truthy_false in Hkey.
    destruct Hkey as [Hkey | Hkey]; congruence.
Qed.

(** X17.  The resolver followed by the factory, in the direct-key and
    cloud-hosted modes, never fails at the factory: the vendor client is
    built with the key and the cloud flag of the returned config, and when
    the credentials of the mode are not all set it is built with no key and
    no cloud flag. *)
Theorem pipeline_sdk_modes (process process' : Process) (model authType : option string)
    (config : option ModelOverride) (h : Handler) (cfg : ContentGeneratorConfig)
    (sessionId : option string) :
  authType = Some AuthType.USE_GEMINI \/ authType = Some AuthType.USE_VERTEX_AI ->
  outcome h (resolve process model authType config) = inr cfg ->
  exists options,
    create process' cfg sessionId = Resolve (GoogleGenAI_models options)
    /\ GoogleGenAI.apiKey options = ContentGeneratorConfig.apiKey cfg
    /\ GoogleGenAI.vertexai options = ContentGeneratorConfig.vertexai cfg
    /\ (Spec.credentialsSet process authType = false ->
        GoogleGenAI.apiKey options = None /\ GoogleGenAI.vertexai options = None).
Proof.
  intros Hmode Hret.
  destruct (resolve_returns _ _ _ _ _ _ _ Hret) as (Hauth & Hunset & Hset & _).
  assert (Hsdk : Js.strict_eq (ContentGeneratorConfig.authType cfg)
                   AuthType.LOGIN_WITH_GOOGLE = false
                 /\ (Js.strict_eq (ContentGeneratorConfig.authType cfg)
                       AuthType.USE_GEMINI
                     || Js.strict_eq (ContentGeneratorConfig.authType cfg)
                          AuthType.USE_VERTEX_AI) = true).
  { rewrite Hauth. destruct Hmode as [-> | ->]; split; reflexivity. }
  destruct Hsdk as (Hlogin & Hsdk).
  unfold createContentGenerator. cbv zeta. rewrite Hlogin, Hsdk.
  eexists. split; [reflexivity |]. simpl.
  destruct (Spec.credentialsSet process authType) eqn:Hcred.
  - destruct (Hset eq_refl) as (key & -> & Hne). simpl.
    rewrite (proj2 (String.eqb_neq key "") Hne).
    split; [reflexivity |]. split; [reflexivity | discriminate].
  - rewrite (Hunset eq_refl). simpl. auto.
Qed.

(** X18.  For a config returned by the resolver, the factory fails exactly
    when the mode asked for is none of the four known ones, or is the
    chat-completion mode with [OPENAI_API_KEY] unset or empty; missing
    credentials of the other modes never make it fail. *)
Theorem pipeline_rejects_iff (process process' : Process) (model authType : option string)
    (config : option ModelOverride) (h : Handler) (cfg : ContentGeneratorConfig)
    (sessionId : option string) :
  outcome h (resolve process model authType config) = inr cfg ->
  let unsupported :=
    Spec.knownAuthMode authType = false
    \/ (authType = Some AuthType.USE_OPENAI
        /\ Js.truthy (env process !! "OPENAI_API_KEY") = false) in
  (create process' cfg sessionId = Reject (unsupportedAuthType authType)
   <-> unsupported)
  /\ ((exists handle : Handle, create process' cfg sessionId = Resolve handle)
      <-> ~ unsupported).
Proof.
  intros Hret unsupported.
  destruct (resolve_returns _ _ _ _ _ _ _ Hret) as (Hauth & _).
  assert (Hiff : unsupported
                 <-> Spec.knownAuthMode authType = false
                     \/ (authType = Some AuthType.USE_OPENAI
                         /\ (ContentGeneratorConfig.apiKey cfg = None
                             \/ ContentGeneratorConfig.apiKey cfg = Some ""))).
  { unfold unsupported. rewrite <- truthy_false.
    split; (intros [Hunknown | (Hmode & Hkey)]; [left; exact Hunknown | right]);
      (split; [exact Hmode |]);
      pose proof Hret as Hchat; rewrite Hmode in Hchat;
      rewrite (resolved_chat_key_truthy _ _ _ _ _ Hchat) in *; exact Hkey. }
  rewrite Hiff, (unsupported_iff authType (ContentGeneratorConfig.apiKey cfg)).
  pose proof (create_dispatch (AsyncGenerator := AsyncGenerator)
                (CountTokensResponse := CountTokensResponse)
                (EmbedContentResponse := EmbedContentResponse)
                process' cfg sessionId) as Hd.
  cbv zeta in Hd. rewrite Hauth in Hd.
  destruct (Js.strict_eq authType AuthType.LOGIN_WITH_GOOGLE
            || Js.strict_eq authType AuthType.USE_GEMINI
            || Js.strict_eq authType AuthType.USE_VERTEX_AI
            || (Js.strict_eq authType AuthType.USE_OPENAI
                && Js.truthy (ContentGeneratorConfig.apiKey cfg))).
  - destruct Hd as (handle & Hd). rewrite Hd. repeat split.
    + discriminate.
    + discriminate.
    + intros _. discriminate.
    + intros _. exists handle. reflexivity.
  - rewrite Hd. repeat split.
    + intros (handle & Hh). discriminate.
    + intros Hn. exfalso. apply Hn. reflexivity.
Qed.

End PipelineProperties.


(** * The properties at concrete inputs *)

(** C1, as stated, fails: with no key in the environment the direct-key
    mode gets the config as constructed, with no [apiKey]. *)
Lemma resolver_key_mode_without_key :
  let cfg :=
    {| ContentGeneratorConfig.model := "gemini-2.5-pro";
       ContentGeneratorConfig.apiKey := None;
       ContentGeneratorConfig.vertexai := None;
       ContentGeneratorConfig.authType := Some AuthType.USE_GEMINI |} in
  createContentGeneratorConfig Sample.DEFAULT_GEMINI_MODEL Sample.bare
    None (Some AuthType.USE_GEMINI) None
  = Resolve cfg
  /\ Spec.keyBased (ContentGeneratorConfig.authType cfg) = true
  /\ ~ (exists key, ContentGeneratorConfig.apiKey cfg = Some key /\ key <> "").
Proof.
  cbv zeta. split; [reflexivity | split; [reflexivity |]].
  intros (key & Hkey & _). discriminate.
Qed.

(** C1, as amended, where the direct-access key is set. *)
Lemma resolver_apiKey_iff_credentials_witness :
  let cfg :=
    {| ContentGeneratorConfig.model := "gemini-2.5-flash";
       ContentGeneratorConfig.apiKey := Some "g-key";
       ContentGeneratorConfig.vertexai := None;
       ContentGeneratorConfig.authType := Some AuthType.USE_GEMINI |} in
  outcome Sample.hello
    (createContentGeneratorConfig Sample.DEFAULT_GEMINI_MODEL Sample.withGeminiKey
       None (Some AuthType.USE_GEMINI) None)
  = inr cfg
  /\ Spec.keyBased (ContentGeneratorConfig.authType cfg) = true
  /\ ((exists key, ContentGeneratorConfig.apiKey cfg = Some key /\ key <> "")
      <-> Spec.credentialsSet Sample.withGeminiKey (ContentGeneratorConfig.authType cfg)
          = true)
  /\ (Spec.credentialsSet Sample.withGeminiKey (ContentGeneratorConfig.authType cfg)
      = false ->
      cfg = initialConfig Sample.DEFAULT_GEMINI_MODEL None
              (ContentGeneratorConfig.authType cfg) None
      /\ ContentGeneratorConfig.apiKey cfg = None).
Proof.
  cbv zeta. split; [reflexivity | split; [reflexivity |]].
  apply (resolver_apiKey_iff_credentials Sample.DEFAULT_GEMINI_MODEL Sample.withGeminiKey
           None (Some AuthType.USE_GEMINI) None Sample.hello); reflexivity.
Defined.

(** C2, as stated, fails: in chat-completion mode with the empty string as
    [apiKey] (a known mode, a key that is not absent) the factory throws the
    unsupported-mode error. *)
Lemma factory_rejects_empty_key :
  @createContentGenerator unit unit unit Sample.bare Sample.emptyKeyConfig None
  = Reject (Js.Error "Error creating contentGenerator: Unsupported authType: openai")
  /\ Spec.knownAuthMode (ContentGeneratorConfig.authType Sample.emptyKeyConfig) = true
  /\ ~ (ContentGeneratorConfig.authType Sample.emptyKeyConfig = Some AuthType.USE_OPENAI
        /\ ContentGeneratorConfig.apiKey Sample.emptyKeyConfig = None).
Proof.
  split; [reflexivity | split; [reflexivity |]].
  intros (_ & Hkey). discriminate.
Qed.

(** C2, as amended, on the empty key and on a key that is set. *)
Lemma factory_unsupported_iff_witness :
  @createContentGenerator unit unit unit Sample.bare Sample.emptyKeyConfig None
  = Reject (unsupportedAuthType (Some AuthType.USE_OPENAI))
  /\ exists handle,
       @createContentGenerator unit unit unit Sample.bare Sample.openaiConfig None
       = Resolve handle.
Proof.
  split.
  - apply (proj1 (@factory_unsupported_iff unit unit unit
                    Sample.bare Sample.emptyKeyConfig None)).
    right. split; [reflexivity | right; reflexivity].
  - apply (proj1 (proj2 (@factory_unsupported_iff unit unit unit
                           Sample.bare Sample.openaiConfig None))).
    intros [Hmode | (_ & [Hkey | Hkey])]; discriminate.
Defined.

(** C4, as stated, fails: the endpoint answers a completion whose array
    of choices is empty, and [generateContent] throws at line 170 instead of
    returning a response. *)
Lemma generateContent_no_choice :
  let openai := {| OpenAI.apiKey := Some "sk-key" |} in
  let completion := {| OpenAI.choices := [] |} in
  Sample.answering "gemini-2.5-flash" completion _
    (chat_completions_create openai
       (completionBody Sample.openaiConfig (promptOf Sample.abc)))
  = inr completion
  /\ run (Sample.answering "gemini-2.5-flash" completion)
       (generateContent
          (@openaiContentGenerator unit unit unit openai Sample.openaiConfig)
          (Sample.request Sample.abc))
     = ([ call (chat_completions_create openai
                  (completionBody Sample.openaiConfig (promptOf Sample.abc))) ],
        inl (Js.TypeError "Cannot read properties of undefined (reading 'message')")).
Proof. cbv zeta. split; reflexivity. Qed.

(** C4, as amended, where the endpoint answers the message text [hello]. *)
Lemma generateContent_wraps_completion_witness :
  let openai := {| OpenAI.apiKey := Some "sk-key" |} in
  let request := Sample.request Sample.abc in
  Sample.hello _ (chat_completions_create openai
                    (completionBody Sample.openaiConfig
                       (promptOf (GenAI.contents request))))
  = inr (Sample.completionOf (Some "hello"))
  /\ OpenAI.choices (Sample.completionOf (Some "hello"))
     = [ {| OpenAI.message :=
              {| OpenAI.role := "assistant"; OpenAI.content := Some "hello" |} |} ]
  /\ outcome Sample.hello
       (generateContent
          (@openaiContentGenerator unit unit unit openai Sample.openaiConfig) request)
     = inr {| GenAI.candidates :=
                [ {| GenAI.content :=
                       {| GenAI.parts := [ {| GenAI.text := Some "hello" |} ] |} |} ] |}.
Proof.
  cbv zeta. split; [reflexivity | split; [reflexivity |]].
  apply (@generateContent_wraps_completion unit unit unit
           {| OpenAI.apiKey := Some "sk-key" |} Sample.openaiConfig
           (Sample.request Sample.abc) Sample.hello
           (Sample.completionOf (Some "hello"))
           {| OpenAI.message :=
                {| OpenAI.role := "assistant"; OpenAI.content := Some "hello" |} |}
           []); reflexivity.
Defined.

(** C7 where all three cloud variables are set, and where the location
    is missing. *)
Lemma resolver_cloud_all_or_nothing_witness :
  createContentGeneratorConfig Sample.DEFAULT_GEMINI_MODEL Sample.withCloud
    None (Some AuthType.USE_VERTEX_AI) None
  = Await (getEffectiveModel (Some "c-key") "gemini-2.5-pro")
      (fun m =>
         Resolve {| ContentGeneratorConfig.model := m;
                    ContentGeneratorConfig.apiKey := Some "c-key";
                    ContentGeneratorConfig.vertexai := Some true;
                    ContentGeneratorConfig.authType := Some AuthType.USE_VERTEX_AI |})
  /\ createContentGeneratorConfig Sample.DEFAULT_GEMINI_MODEL Sample.withoutLocation
       None (Some AuthType.USE_VERTEX_AI) None
     = Resolve {| ContentGeneratorConfig.model := "gemini-2.5-pro";
                  ContentGeneratorConfig.apiKey := None;
                  ContentGeneratorConfig.vertexai := None;
                  ContentGeneratorConfig.authType := Some AuthType.USE_VERTEX_AI |}.
Proof.
  split.
  - apply (proj1 (resolver_cloud_all_or_nothing Sample.DEFAULT_GEMINI_MODEL
                    Sample.withCloud None None)); reflexivity.
  - apply (proj1 (proj2 (resolver_cloud_all_or_nothing Sample.DEFAULT_GEMINI_MODEL
                           Sample.withoutLocation None None))).
    right. right. reflexivity.
Defined.

(** C8, as stated, fails: in the image of the repository's Dockerfile the
    chat-completion key is set, to the empty string, and the resolver sets
    no [apiKey]. *)
Lemma resolver_chat_key_empty :
  env Sample.docker !! "OPENAI_API_KEY" = Some ""
  /\ createContentGeneratorConfig Sample.DEFAULT_GEMINI_MODEL Sample.docker
       None (Some AuthType.USE_OPENAI) None
     = Resolve {| ContentGeneratorConfig.model := "gemini-2.5-pro";
                  ContentGeneratorConfig.apiKey := None;
                  ContentGeneratorConfig.vertexai := None;
                  ContentGeneratorConfig.authType := Some AuthType.USE_OPENAI |}.
Proof. split; reflexivity. Qed.

(** C8, as amended, where the chat-completion key is set. *)
Lemma resolver_chat_key_witness :
  env Sample.withOpenAIKey !! "OPENAI_API_KEY" = Some "sk-key"
  /\ "sk-key" <> ""
  /\ createContentGeneratorConfig Sample.DEFAULT_GEMINI_MODEL Sample.withOpenAIKey
       (Some "gpt-4o") (Some AuthType.USE_OPENAI) None
     = Resolve {| ContentGeneratorConfig.model := "gpt-4o";
                  ContentGeneratorConfig.apiKey := Some "sk-key";
                  ContentGeneratorConfig.vertexai := None;
                  ContentGeneratorConfig.authType := Some AuthType.USE_OPENAI |}
  /\ calls Sample.hello
       (createContentGeneratorConfig Sample.DEFAULT_GEMINI_MODEL Sample.withOpenAIKey
          (Some "gpt-4o") (Some AuthType.USE_OPENAI) None)
     = [].
Proof.
  split; [reflexivity | split; [discriminate |]].
  apply (resolver_chat_key Sample.DEFAULT_GEMINI_MODEL Sample.withOpenAIKey
           (Some "gpt-4o") None "sk-key" Sample.hello); [reflexivity | discriminate].
Defined.

(** C9, as stated, fails: an override that answers the empty string is
    there, and the resolver takes the requested model all the same. *)
Lemma effectiveModel_skips_empty_override :
  callGetModel (Some Sample.emptyOverride) = Some ""
  /\ createContentGeneratorConfig Sample.DEFAULT_GEMINI_MODEL Sample.bare
       (Some "gpt-4o") (Some AuthType.LOGIN_WITH_GOOGLE) (Some Sample.emptyOverride)
     = Resolve {| ContentGeneratorConfig.model := "gpt-4o";
                  ContentGeneratorConfig.apiKey := None;
                  ContentGeneratorConfig.vertexai := None;
                  ContentGeneratorConfig.authType := Some AuthType.LOGIN_WITH_GOOGLE |}
  /\ effectiveModel Sample.DEFAULT_GEMINI_MODEL (Some "gpt-4o") (Some Sample.emptyOverride)
     <> Spec.modelByPresence (callGetModel (Some Sample.emptyOverride)) (Some "gpt-4o")
          Sample.DEFAULT_GEMINI_MODEL.
Proof. split; [reflexivity | split; [reflexivity | discriminate]]. Qed.

(** C9, as amended, on an override that answers the empty string and on
    an empty requested model. *)
Lemma effectiveModel_precedence_witness :
  effectiveModel Sample.DEFAULT_GEMINI_MODEL (Some "gpt-4o") (Some Sample.emptyOverride)
  = "gpt-4o"
  /\ effectiveModel Sample.DEFAULT_GEMINI_MODEL (Some "") None
     = Sample.DEFAULT_GEMINI_MODEL.
Proof.
  split.
  - apply (proj1 (proj2 (effectiveModel_precedence Sample.DEFAULT_GEMINI_MODEL
                           Sample.bare (Some "gpt-4o") None (Some Sample.emptyOverride))));
      [reflexivity | reflexivity | discriminate].
  - apply (proj1 (proj2 (proj2 (effectiveModel_precedence Sample.DEFAULT_GEMINI_MODEL
                                  Sample.bare (Some "") None None))));
      reflexivity.
Defined.


(** * The further properties at concrete inputs *)

(** X1 where the three cloud variables are set. *)
Lemma resolver_cloud_flag_witness :
  let cfg :=
    {| ContentGeneratorConfig.model := "gemini-2.5-flash";
       ContentGeneratorConfig.apiKey := Some "c-key";
       ContentGeneratorConfig.vertexai := Some true;
       ContentGeneratorConfig.authType := Some AuthType.USE_VERTEX_AI |} in
  outcome Sample.hello
    (createContentGeneratorConfig Sample.DEFAULT_GEMINI_MODEL Sample.withCloud
       None (Some AuthType.USE_VERTEX_AI) None)
  = inr cfg
  /\ ContentGeneratorConfig.authType cfg = Some AuthType.USE_VERTEX_AI
  /\ ContentGeneratorConfig.vertexai cfg = Some true.
Proof.
  cbv zeta. split; [reflexivity |].
  destruct (resolver_cloud_flag Sample.DEFAULT_GEMINI_MODEL Sample.withCloud
              None (Some AuthType.USE_VERTEX_AI) None Sample.hello _ eq_refl)
    as (Hmode & Hflag & _).
  split; [exact Hmode |]. apply Hflag. repeat split; reflexivity.
Defined.

(** X2 where the direct-access key is set. *)
Lemma resolver_direct_key_witness :
  env Sample.withGeminiKey !! "GEMINI_API_KEY" = Some "g-key"
  /\ "g-key" <> ""
  /\ run Sample.hello
       (createContentGeneratorConfig Sample.DEFAULT_GEMINI_MODEL Sample.withGeminiKey
          None (Some AuthType.USE_GEMINI) None)
     = ([ call (getEffectiveModel (Some "g-key") "gemini-2.5-pro") ],
        inr {| ContentGeneratorConfig.model := "gemini-2.5-flash";
               ContentGeneratorConfig.apiKey := Some "g-key";
               ContentGeneratorConfig.vertexai := None;
               ContentGeneratorConfig.authType := Some AuthType.USE_GEMINI |}).
Proof.
  split; [reflexivity | split; [discriminate |]].
  apply (resolver_direct_key Sample.DEFAULT_GEMINI_MODEL Sample.withGeminiKey
           None None "g-key" Sample.hello); [reflexivity | discriminate].
Defined.

(** X4 where the override throws, and where the Effective Model Resolver
    rejects. *)
Lemma resolver_rejections_witness :
  run Sample.hello
    (createContentGeneratorConfigOrThrow Sample.DEFAULT_GEMINI_MODEL
       Sample.withGeminiKey None (Some AuthType.USE_GEMINI) (Some throwingOverride))
  = ([], inl (Js.Error "settings not loaded"))
  /\ (tryGetModel None = Some (inl (Js.Error "fetch failed"))
      \/ exists key m,
           rejecting (Js.Error "fetch failed") _ (getEffectiveModel key m)
           = inl (Js.Error "fetch failed")).
Proof.
  split.
  - apply (proj1 (resolver_rejections Sample.DEFAULT_GEMINI_MODEL Sample.withGeminiKey
                    None (Some AuthType.USE_GEMINI) (Some throwingOverride)
                    Sample.hello)).
    reflexivity.
  - apply (proj1 (proj2 (resolver_rejections Sample.DEFAULT_GEMINI_MODEL
                           Sample.withGeminiKey None (Some AuthType.USE_GEMINI) None
                           (rejecting (Js.Error "fetch failed"))))).
    reflexivity.
Defined.

(** X5 where the direct-access key is set and the mode is direct-key. *)
Lemma resolver_key_provenance_witness :
  (Some AuthType.USE_GEMINI = Some AuthType.USE_GEMINI
   /\ env Sample.withGeminiKey !! "GEMINI_API_KEY" = Some "g-key")
  \/ (Some AuthType.USE_GEMINI = Some AuthType.USE_VERTEX_AI
      /\ env Sample.withGeminiKey !! "GOOGLE_API_KEY" = Some "g-key")
  \/ (Some AuthType.USE_GEMINI = Some AuthType.USE_OPENAI
      /\ env Sample.withGeminiKey !! "OPENAI_API_KEY" = Some "g-key").
Proof.
  apply (resolver_key_provenance Sample.DEFAULT_GEMINI_MODEL Sample.withGeminiKey
           None (Some AuthType.USE_GEMINI) None Sample.hello
           {| ContentGeneratorConfig.model := "gemini-2.5-flash";
              ContentGeneratorConfig.apiKey := Some "g-key";
              ContentGeneratorConfig.vertexai := None;
              ContentGeneratorConfig.authType := Some AuthType.USE_GEMINI |}
           "g-key"); reflexivity.
Defined.

(** X6 on the variable [CLI_VERSION]. *)
Lemma resolver_environment_frame_witness :
  createContentGeneratorConfig Sample.DEFAULT_GEMINI_MODEL
    {| env := <[ "CLI_VERSION" := "0.1.5" ]> (env Sample.withGeminiKey);
       version := version Sample.withGeminiKey;
       platform := platform Sample.withGeminiKey;
       arch := arch Sample.withGeminiKey |}
    None (Some AuthType.USE_GEMINI) None
  = createContentGeneratorConfig Sample.DEFAULT_GEMINI_MODEL Sample.withGeminiKey
      None (Some AuthType.USE_GEMINI) None.
Proof.
  apply (resolver_environment_frame Sample.DEFAULT_GEMINI_MODEL
           Sample.withGeminiKey "CLI_VERSION" "0.1.5"
           None (Some AuthType.USE_GEMINI) None).
  apply (bool_decide_unpack _). vm_compute. exact I.
Defined.

(** X7 where [CLI_VERSION] is set, in direct-key mode. *)
Lemma factory_user_agent_witness :
  exists handle,
    @createContentGenerator unit unit unit withCliVersion (geminiConfig (Some "g-key")) None
    = Resolve handle
    /\ ((ContentGeneratorConfig.authType (geminiConfig (Some "g-key"))
         = Some AuthType.USE_OPENAI
         /\ headersOf handle = None)
        \/ exists v,
             headersOf handle = Some {[ "User-Agent" := userAgent withCliVersion v ]}
             /\ ((env withCliVersion !! "CLI_VERSION" = Some v /\ v <> "")
                 \/ (Js.truthy (env withCliVersion !! "CLI_VERSION") = false
                     /\ v = version withCliVersion))).
Proof.
  eexists. split; [reflexivity |].
  apply (@factory_user_agent unit unit unit withCliVersion
           (geminiConfig (Some "g-key")) None _ eq_refl).
Defined.

(** X8 on the empty-string key, in direct-key mode. *)
Lemma factory_sdk_modes_witness :
  exists options,
    @createContentGenerator unit unit unit Sample.bare (geminiConfig (Some "")) None
    = Resolve (GoogleGenAI_models options)
    /\ GoogleGenAI.vertexai options = None
    /\ GoogleGenAI.apiKey options = None.
Proof.
  destruct (@factory_sdk_modes unit unit unit Sample.bare (geminiConfig (Some "")) None
              (or_introl eq_refl))
    as (options & Hcreate & Hflag & _ & _ & Hempty).
  exists options. split; [exact Hcreate |]. split; [exact Hflag |].
  apply Hempty. reflexivity.
Defined.

(** X10 where the endpoint rejects, and where it answers no choice. *)
Lemma generateContent_failures_witness :
  let openai := {| OpenAI.apiKey := Some "sk-key" |} in
  let program :=
    generateContent (@openaiContentGenerator unit unit unit openai Sample.openaiConfig)
      (Sample.request Sample.abc) in
  outcome (rejecting (Js.Error "429 Too Many Requests")) program
  = inl (Js.Error "429 Too Many Requests")
  /\ exists message, outcome noChoice program = inl (Js.TypeError message).
Proof.
  cbv zeta. split.
  - pose proof (proj1 (@generateContent_failures unit unit unit
                         {| OpenAI.apiKey := Some "sk-key" |} Sample.openaiConfig
                         (Sample.request Sample.abc)
                         (rejecting (Js.Error "429 Too Many Requests")))
                  (Js.Error "429 Too Many Requests") eq_refl) as Hrun.
    unfold outcome. rewrite Hrun. reflexivity.
  - destruct (proj1 (proj2 (@generateContent_failures unit unit unit
                              {| OpenAI.apiKey := Some "sk-key" |} Sample.openaiConfig
                              (Sample.request Sample.abc) noChoice))
                {| OpenAI.choices := [] |} eq_refl eq_refl) as (message & Hrun).
    exists message. unfold outcome. rewrite Hrun. reflexivity.
Defined.

(** X11 on two requests that differ in their model only. *)
Lemma generateContent_ignores_request_model_witness :
  let openai := {| OpenAI.apiKey := Some "sk-key" |} in
  let g := @openaiContentGenerator unit unit unit openai Sample.openaiConfig in
  generateContent g {| GenAI.model := "gemini-2.5-pro"; GenAI.contents := Sample.abc |}
  = generateContent g {| GenAI.model := "gpt-4o"; GenAI.contents := Sample.abc |}.
Proof.
  cbv zeta.
  apply (proj1 (@generateContent_ignores_request_model unit unit unit
                  {| OpenAI.apiKey := Some "sk-key" |} Sample.openaiConfig
                  {| GenAI.model := "gemini-2.5-pro"; GenAI.contents := Sample.abc |}
                  {| GenAI.model := "gpt-4o"; GenAI.contents := Sample.abc |}
                  Sample.hello eq_refl)).
Defined.

(** X12 on a list of two strings and a list of one. *)
Lemma promptOf_app_witness :
  promptOf (GenAI.Many [ GenAI.ContentString "a"; GenAI.ContentString "b";
                         GenAI.ContentString "c" ])
  = promptOf (GenAI.Many [ GenAI.ContentString "a"; GenAI.ContentString "b" ])
    +:+ Js.LF +:+ promptOf (GenAI.Many [ GenAI.ContentString "c" ]).
Proof.
  apply (proj2 (promptOf_app [ GenAI.ContentString "a"; GenAI.ContentString "b" ]
                  [ GenAI.ContentString "c" ])); discriminate.
Defined.

(** X13 on the second item of the specification's example. *)
Lemma promptOf_inline_parts_witness :
  promptOf Sample.abc
  = promptOf (GenAI.Many [ GenAI.ContentObject (Js.Value "a") Js.Absent;
                           GenAI.ContentObject (Js.Value "b") Js.Absent;
                           GenAI.ContentString "c" ]).
Proof.
  apply (promptOf_inline_parts [ GenAI.ContentObject (Js.Value "a") Js.Absent ] []
           [ GenAI.PartObject (Js.Value "b"); GenAI.PartString "c" ]).
  discriminate.
Defined.

(** X16 in the image of the repository's Dockerfile, and with a key. *)
Lemma pipeline_chat_completion_witness :
  (exists cfg,
     createContentGeneratorConfig Sample.DEFAULT_GEMINI_MODEL Sample.docker
       None (Some AuthType.USE_OPENAI) None
     = Resolve cfg
     /\ @createContentGenerator unit unit unit Sample.docker cfg None
        = Reject (unsupportedAuthType (Some AuthType.USE_OPENAI)))
  /\ (exists cfg,
        createContentGeneratorConfig Sample.DEFAULT_GEMINI_MODEL Sample.withOpenAIKey
          None (Some AuthType.USE_OPENAI) None
        = Resolve cfg
        /\ @createContentGenerator unit unit unit Sample.withOpenAIKey cfg None
           = Resolve (OpenAIContentGenerator {| OpenAI.apiKey := Some "sk-key" |}
                        (openaiContentGenerator {| OpenAI.apiKey := Some "sk-key" |} cfg))).
Proof.
  split.
  - destruct (@pipeline_chat_completion Sample.DEFAULT_GEMINI_MODEL unit unit unit
                Sample.docker Sample.docker None None None)
      as (cfg & Hresolve & _ & _ & Hfails).
    exists cfg. split; [exact Hresolve | apply Hfails; reflexivity].
  - destruct (@pipeline_chat_completion Sample.DEFAULT_GEMINI_MODEL unit unit unit
                Sample.withOpenAIKey Sample.withOpenAIKey None None None)
      as (cfg & Hresolve & _ & Hwraps & _).
    exists cfg. split; [exact Hresolve |].
    apply Hwraps; [reflexivity | discriminate].
Defined.

(** X17 in direct-key mode with no key in the environment. *)
Lemma pipeline_sdk_modes_witness :
  exists options,
    @createContentGenerator unit unit unit Sample.bare (geminiConfig None) None
    = Resolve (GoogleGenAI_models options)
    /\ GoogleGenAI.apiKey options = None
    /\ GoogleGenAI.vertexai options = None.
Proof.
  destruct (@pipeline_sdk_modes Sample.DEFAULT_GEMINI_MODEL unit unit unit
              Sample.bare Sample.bare None (Some AuthType.USE_GEMINI) None
              Sample.hello (geminiConfig None) None (or_introl eq_refl) eq_refl)
    as (options & Hcreate & _ & _ & Hunset).
  exists options. split; [exact Hcreate |]. apply Hunset. reflexivity.
Defined.

(** X18 in the image of the repository's Dockerfile, in chat-completion
    mode. *)
Lemma pipeline_rejects_iff_witness :
  @createContentGenerator unit unit unit Sample.docker
    {| ContentGeneratorConfig.model := "gemini-2.5-pro";
       ContentGeneratorConfig.apiKey := None;
       ContentGeneratorConfig.vertexai := None;
       ContentGeneratorConfig.authType := Some AuthType.USE_OPENAI |} None
  = Reject (unsupportedAuthType (Some AuthType.USE_OPENAI)).
Proof.
  apply (proj1 (@pipeline_rejects_iff Sample.DEFAULT_GEMINI_MODEL unit unit unit
                  Sample.docker Sample.docker None (Some AuthType.USE_OPENAI) None
                  Sample.hello _ None eq_refl)).
  right. split; reflexivity.
Defined.
